(** * ConnectionDB: the password hasher and the credential store of [app.py]

    A shallow embedding of the authentication core of the application:
    [hash_password], [verify_password], [ensure_users_file], [load_users],
    [save_users], [do_login] and [change_password], together with the
    library functions they call ([hashlib.pbkdf2_hmac], [bytes.hex],
    [bytes.fromhex], [str.split], [secrets.compare_digest],
    [secrets.token_bytes], [json.dump], [json.load]), and the remaining
    routes and helpers ([require_login], [login_page], [logout], [add_page],
    [add_record], [update_page], [update_record], [download_excel],
    [load_data], [save_data]) over an interface for pandas.  The route
    [index], which filters the frame with a regular expression, is not
    modelled.

    Python values are modelled as follows.
    - [str]: the list of its code points, each an [N];
    - [bytes]: a list of [Byte.byte];
    - an exception: a value of [exn], carried by [result];
    - the process environment (the users file, the entropy source, the
      standard output): a record [world] threaded through every operation. *)

From Stdlib Require Import String Ascii NArith ZArith PArith Lia Bool.
From Stdlib.Strings Require Import Byte.
From Stdlib Require Import List.
Import ListNotations.
Local Open Scope N_scope.

(** ** Python values *)

Definition char := N.
Definition str := list char.
Definition bytes := list byte.

(** A string literal of the source, as a [str]. *)
Definition lit (s : string) : str :=
  map N_of_ascii (list_ascii_of_string s).

Definition byte_of_N (n : N) : byte :=
  match Byte.of_N (n mod 256) with
  | Some b => b
  | None => x00
  end.

Definition str_eqb (a b : str) : bool :=
  if list_eq_dec N.eq_dec a b then true else false.

(** The exceptions the modelled code can raise.  Every one of them derives
    from [Exception]. *)
Inductive exn : Set :=
| ValueError
| TypeError
| AttributeError
| UnicodeEncodeError
| JSONDecodeError
| FileNotFoundError.

Inductive result (A : Type) : Type :=
| Return (a : A)
| Raise (e : exn).
Arguments Return {A} a.
Arguments Raise {A} e.

Definition bind {A B} (r : result A) (k : A -> result B) : result B :=
  match r with
  | Return a => k a
  | Raise e => Raise e
  end.

Notation "x <- r ;; k" := (bind r (fun x => k))
  (at level 61, r at next level, right associativity).

(** [try: body / except Exception: return h]. *)
Definition except_Exception {A} (body : result A) (h : A) : result A :=
  match body with
  | Return a => Return a
  | Raise _ => Return h
  end.

(** ** [bytes.hex] and [bytes.fromhex] *)

(** ["0123456789abcdef"[n]] *)
Definition hexdigit (n : N) : char :=
  if n <? 10 then 48 + n else 87 + n.

Definition byte_hex (b : byte) : str :=
  let n := Byte.to_N b in [hexdigit (n / 16); hexdigit (n mod 16)].

Definition bytes_hex (bs : bytes) : str := flat_map byte_hex bs.

(** CPython's [_PyLong_DigitValue]: the value of a digit in base 36, and 37
    for every other character. *)
Definition digit_value (c : char) : N :=
  if (48 <=? c) && (c <=? 57) then c - 48
  else if (97 <=? c) && (c <=? 122) then c - 87
  else if (65 <=? c) && (c <=? 90) then c - 55
  else 37.

(** CPython's [Py_ISSPACE]. *)
Definition is_space (c : char) : bool :=
  ((9 <=? c) && (c <=? 13)) || (c =? 32).

Definition is_ascii (c : char) : bool := c <? 128.

(** The loop of [_PyBytes_FromHex] (CPython 3.7 and later): white space is
    skipped between bytes, never between the two digits of a byte. *)
Fixpoint fromhex_loop (s : str) : result bytes :=
  match s with
  | [] => Return []
  | c :: rest =>
      if is_space c then fromhex_loop rest
      else
        match rest with
        | [] => Raise ValueError
        | d :: rest' =>
            if (digit_value c <? 16) && (digit_value d <? 16)
            then bs <- fromhex_loop rest' ;;
                 Return (byte_of_N (16 * digit_value c + digit_value d) :: bs)
            else Raise ValueError
        end
  end.

Definition bytes_fromhex (s : str) : result bytes :=
  if forallb is_ascii s then fromhex_loop s else Raise ValueError.

(** ** [str.split] with a one-character separator *)

Fixpoint split_on (sep : char) (s : str) : list str :=
  match s with
  | [] => [[]]
  | c :: s' =>
      if c =? sep then [] :: split_on sep s'
      else
        match split_on sep s' with
        | f :: fs => (c :: f) :: fs
        | [] => [[c]]
        end
  end.

Definition DOLLAR : char := 36.

(** ** [str.encode("utf-8")] *)

Definition utf8_char (c : char) : result bytes :=
  if c <? 0x80 then Return [byte_of_N c]
  else if c <? 0x800 then
    Return [byte_of_N (N.lor 0xC0 (N.shiftr c 6));
            byte_of_N (N.lor 0x80 (N.land c 0x3F))]
  else if c <? 0x10000 then
    if (0xD800 <=? c) && (c <=? 0xDFFF) then Raise UnicodeEncodeError
    else
      Return [byte_of_N (N.lor 0xE0 (N.shiftr c 12));
              byte_of_N (N.lor 0x80 (N.land (N.shiftr c 6) 0x3F));
              byte_of_N (N.lor 0x80 (N.land c 0x3F))]
  else if c <? 0x110000 then
    Return [byte_of_N (N.lor 0xF0 (N.shiftr c 18));
            byte_of_N (N.lor 0x80 (N.land (N.shiftr c 12) 0x3F));
            byte_of_N (N.lor 0x80 (N.land (N.shiftr c 6) 0x3F));
            byte_of_N (N.lor 0x80 (N.land c 0x3F))]
  else Raise UnicodeEncodeError.

Fixpoint encode_utf8 (s : str) : result bytes :=
  match s with
  | [] => Return []
  | c :: s' =>
      b <- utf8_char c ;;
      bs <- encode_utf8 s' ;;
      Return (b ++ bs)
  end.

(** A string that [encode_utf8] accepts: every element is a Unicode scalar
    value (a code point that is no surrogate). *)
Definition scalar_value (c : char) : bool :=
  (c <? 0xD800) || ((0xDFFF <? c) && (c <? 0x110000)).

Definition valid_text (s : str) : bool := forallb scalar_value s.

(** ** SHA-256 (FIPS 180-4), on 32-bit words held in [N] *)

Module SHA256.

Definition mask32 : N := 0xFFFFFFFF.
Definition add32 (x y : N) : N := (x + y) mod 2 ^ 32.
Definition rotr (n x : N) : N :=
  N.lor (N.shiftr x n) (N.land (N.shiftl x (32 - n)) mask32).
Definition not32 (x : N) : N := N.lxor x mask32.

Definition Ch (x y z : N) : N :=
  N.lxor (N.land x y) (N.land (not32 x) z).
Definition Maj (x y z : N) : N :=
  N.lxor (N.lxor (N.land x y) (N.land x z)) (N.land y z).
Definition bsig0 (x : N) : N :=
  N.lxor (N.lxor (rotr 2 x) (rotr 13 x)) (rotr 22 x).
Definition bsig1 (x : N) : N :=
  N.lxor (N.lxor (rotr 6 x) (rotr 11 x)) (rotr 25 x).
Definition ssig0 (x : N) : N :=
  N.lxor (N.lxor (rotr 7 x) (rotr 18 x)) (N.shiftr x 3).
Definition ssig1 (x : N) : N :=
  N.lxor (N.lxor (rotr 17 x) (rotr 19 x)) (N.shiftr x 10).

(** Integer cube root, by bisection on [bits] binary digits. *)
Fixpoint icbrt_aux (bits : nat) (acc x : N) : N :=
  match bits with
  | O => acc
  | S k =>
      let cand := acc + 2 ^ N.of_nat k in
      if cand * cand * cand <=? x then icbrt_aux k cand x
      else icbrt_aux k acc x
  end.

Fixpoint isqrt_aux (bits : nat) (acc x : N) : N :=
  match bits with
  | O => acc
  | S k =>
      let cand := acc + 2 ^ N.of_nat k in
      if cand * cand <=? x then isqrt_aux k cand x else isqrt_aux k acc x
  end.

Definition primes64 : list N :=
  [2; 3; 5; 7; 11; 13; 17; 19; 23; 29; 31; 37; 41; 43; 47; 53;
   59; 61; 67; 71; 73; 79; 83; 89; 97; 101; 103; 107; 109; 113; 127; 131;
   137; 139; 149; 151; 157; 163; 167; 173; 179; 181; 191; 193; 197; 199;
   211; 223; 227; 229; 233; 239; 241; 251; 257; 263; 269; 271; 277; 281;
   283; 293; 307; 311].

(** The round constants: the first 32 bits of the fractional parts of the
    cube roots of the first 64 primes. *)
Definition K : list N :=
  Eval vm_compute in
    map (fun p => icbrt_aux 40 0 (p * 2 ^ 96) mod 2 ^ 32) primes64.

(** The initial hash value: the first 32 bits of the fractional parts of
    the square roots of the first 8 primes. *)
Definition H0 : list N :=
  Eval vm_compute in
    map (fun p => isqrt_aux 40 0 (p * 2 ^ 64) mod 2 ^ 32) (firstn 8 primes64).

Fixpoint be_word (bs : list byte) (acc : N) : N :=
  match bs with
  | [] => acc
  | b :: bs' => be_word bs' (acc * 256 + Byte.to_N b)
  end.

Definition word_bytes (x : N) : bytes :=
  [byte_of_N (N.shiftr x 24); byte_of_N (N.shiftr x 16);
   byte_of_N (N.shiftr x 8); byte_of_N x].

(** Cut a byte string into words of 4 bytes, [n] of them. *)
Fixpoint words_of (n : nat) (bs : bytes) : list N :=
  match n with
  | O => []
  | S k => be_word (firstn 4 bs) 0 :: words_of k (skipn 4 bs)
  end.

(** The message schedule, newest word first. *)
Fixpoint extend (n : nat) (wrev : list N) : list N :=
  match n with
  | O => wrev
  | S k =>
      let w :=
        add32 (add32 (ssig1 (nth 1 wrev 0)) (nth 6 wrev 0))
              (add32 (ssig0 (nth 14 wrev 0)) (nth 15 wrev 0)) in
      extend k (w :: wrev)
  end.

Definition schedule (block : bytes) : list N :=
  rev (extend 48 (rev (words_of 16 block))).

Record state : Set := mkState {
  sa : N; sb : N; sc : N; sd : N; se : N; sf : N; sg : N; sh : N }.

Definition round (s : state) (kw : N * N) : state :=
  let t1 :=
    add32 (add32 (add32 (sh s) (bsig1 (se s))) (Ch (se s) (sf s) (sg s)))
          (add32 (fst kw) (snd kw)) in
  let t2 := add32 (bsig0 (sa s)) (Maj (sa s) (sb s) (sc s)) in
  mkState (add32 t1 t2) (sa s) (sb s) (sc s) (add32 (sd s) t1)
          (se s) (sf s) (sg s).

Definition compress (s : state) (block : bytes) : state :=
  let r := fold_left round (combine K (schedule block)) s in
  mkState (add32 (sa s) (sa r)) (add32 (sb s) (sb r))
          (add32 (sc s) (sc r)) (add32 (sd s) (sd r))
          (add32 (se s) (se r)) (add32 (sf s) (sf r))
          (add32 (sg s) (sg r)) (add32 (sh s) (sh r)).

Definition init : state :=
  mkState (nth 0 H0 0) (nth 1 H0 0) (nth 2 H0 0) (nth 3 H0 0)
          (nth 4 H0 0) (nth 5 H0 0) (nth 6 H0 0) (nth 7 H0 0).

(** Padding: a 1 bit, zeros up to 56 modulo 64 bytes, then the bit length
    of the message on 64 bits. *)
Definition pad (msg : bytes) : bytes :=
  let len := N.of_nat (length msg) in
  let zeros := N.to_nat ((119 - len mod 64) mod 64) in
  msg ++ [x80] ++ repeat x00 zeros
      ++ word_bytes (N.shiftr (8 * len) 32 mod 2 ^ 32)
      ++ word_bytes ((8 * len) mod 2 ^ 32).

Fixpoint blocks (n : nat) (s : state) (bs : bytes) : state :=
  match n with
  | O => s
  | S k => blocks k (compress s (firstn 64 bs)) (skipn 64 bs)
  end.

Definition digest_of (s : state) : bytes :=
  word_bytes (sa s) ++ word_bytes (sb s) ++ word_bytes (sc s)
    ++ word_bytes (sd s) ++ word_bytes (se s) ++ word_bytes (sf s)
    ++ word_bytes (sg s) ++ word_bytes (sh s).

Definition sha256 (msg : bytes) : bytes :=
  let p := pad msg in
  digest_of (blocks (Nat.div (length p) 64) init p).

End SHA256.

(** ** HMAC (RFC 2104) and PBKDF2 (RFC 8018) over SHA-256 *)

Definition xor_byte (a b : byte) : byte :=
  byte_of_N (N.lxor (Byte.to_N a) (Byte.to_N b)).

Definition xor_bytes (a b : bytes) : bytes :=
  map (fun p => xor_byte (fst p) (snd p)) (combine a b).

Definition hmac_sha256 (key msg : bytes) : bytes :=
  let k0 := if Nat.ltb 64 (length key) then SHA256.sha256 key else key in
  let k := k0 ++ repeat x00 (64 - length k0) in
  let ipad := map (xor_byte x36) k in
  let opad := map (xor_byte x5c) k in
  SHA256.sha256 (opad ++ SHA256.sha256 (ipad ++ msg)).

(** One step of the inner loop of PBKDF2: the pair is (U_j, U_1 xor ... xor
    U_j). *)
Definition pbkdf2_step (password : bytes) (ut : bytes * bytes)
  : bytes * bytes :=
  let u := hmac_sha256 password (fst ut) in (u, xor_bytes (snd ut) u).

(** The block T_i = F(P, S, c, i). *)
Definition pbkdf2_block (password salt : bytes) (c : N) (i : N) : bytes :=
  let u1 := hmac_sha256 password (salt ++ SHA256.word_bytes i) in
  snd (N.iter (c - 1) (pbkdf2_step password) (u1, u1)).

(** [hashlib.pbkdf2_hmac("sha256", password, salt, iterations, dklen)]. *)
Definition pbkdf2_hmac_sha256 (password salt : bytes) (iterations : N)
  (dklen : nat) : bytes :=
  let l := Nat.div (dklen + 31) 32 in
  firstn dklen
    (flat_map (fun i => pbkdf2_block password salt iterations (N.of_nat i))
              (seq 1 l)).

(** [dklen=None]: the digest size of SHA-256. *)
Definition DIGEST_SIZE : nat := 32.

Definition ITERATIONS : N := 200000.

(** [hashlib.pbkdf2_hmac("sha256", password, salt, 200_000)], the call of
    [hash_password] and [verify_password].  The constant is sealed: proofs
    reach its definition through [kdf_unseal] only, so that no conversion
    ever starts unfolding 200000 iterations. *)
Lemma kdf_sealed :
  { f : bytes -> bytes -> bytes
  | forall password salt,
      f password salt
      = pbkdf2_hmac_sha256 password salt ITERATIONS DIGEST_SIZE }.
Proof.
  exists (fun password salt =>
            pbkdf2_hmac_sha256 password salt ITERATIONS DIGEST_SIZE).
  reflexivity.
Qed.

Definition kdf : bytes -> bytes -> bytes := proj1_sig kdf_sealed.

Lemma kdf_unseal (password salt : bytes) :
  kdf password salt = pbkdf2_hmac_sha256 password salt ITERATIONS DIGEST_SIZE.
Proof. exact (proj2_sig kdf_sealed password salt). Qed.

(** ** [secrets.compare_digest]

    CPython's [_tscmp]: the loop runs once for every character of the
    second argument, whatever the characters are; [steps] counts its
    iterations.  When the lengths differ the second argument is compared
    with itself and the result starts at 1. *)

Fixpoint tscmp_loop (left right : str) (acc : N) (steps : nat) : N * nat :=
  match right with
  | [] => (acc, steps)
  | r :: right' =>
      tscmp_loop (tl left) right' (N.lor acc (N.lxor (hd 0 left) r)) (S steps)
  end.

Definition tscmp (a b : str) : bool * nat :=
  let start := if Nat.eqb (length a) (length b) then (a, 0) else (b, 1) in
  let fin := tscmp_loop (fst start) b (snd start) O in
  (fst fin =? 0, snd fin).

(** On two [str] arguments [compare_digest] raises [TypeError] unless both
    are ASCII. *)
Definition compare_digest (a b : str) : result bool :=
  if forallb is_ascii a && forallb is_ascii b
  then Return (fst (tscmp a b))
  else Raise TypeError.


(** ** The process environment *)

Record world : Type := mkWorld {
  users_file : option str;   (* the content of users.json; None: no file *)
  entropy : nat -> byte;     (* the bytes the random source delivers *)
  drawn : nat;               (* how many of them were consumed *)
  stdout : list str          (* the lines printed so far *)
}.

(** [secrets.token_bytes(n)] *)
Definition token_bytes (n : nat) (w : world) : bytes * world :=
  (map (entropy w) (seq (drawn w) n),
   mkWorld (users_file w) (entropy w) (drawn w + n) (stdout w)).

Definition write_users_file (content : str) (w : world) : world :=
  mkWorld (Some content) (entropy w) (drawn w) (stdout w).

Definition print (line : str) (w : world) : world :=
  mkWorld (users_file w) (entropy w) (drawn w) (stdout w ++ [line]).

(** ** Config *)

Definition USERS_FILE : str := lit "users.json".
Definition DEFAULT_ADMIN_username : str := lit "admin".
Definition DEFAULT_ADMIN_password : str := lit "secret123".

(** ** Utilities: password hashing (PBKDF2) *)

Definition hash_password (password : str) (salt : option bytes) (w : world)
  : result str * world :=
  let sw :=
    match salt with
    | None => token_bytes 16 w
    | Some s => (s, w)
    end in
  (pw <- encode_utf8 password ;;
   let dk := kdf pw (fst sw) in
   Return (bytes_hex (fst sw) ++ [DOLLAR] ++ bytes_hex dk),
   snd sw).

Definition verify_password (password stored : str) : result bool :=
  except_Exception
    (match split_on DOLLAR stored with
     | [salt_hex; hash_hex] =>
         salt <- bytes_fromhex salt_hex ;;
         pw <- encode_utf8 password ;;
         let candidate := kdf pw salt in
         compare_digest (bytes_hex candidate) hash_hex
     | _ => Raise ValueError
     end)
    false.


(** ** The objects [json.load] returns

    [None], [bool], [int], [float], [str], [list] and [dict] with [str] keys.
    A [dict] keeps its items in insertion order, without duplicate keys.  A
    [float] is represented by the number literal it was read from. *)

#[local] Set Warnings "-register-all".

Inductive pyval : Type :=
| PNone
| PBool (b : bool)
| PInt (z : Z)
| PFloat (literal : str)
| PStr (s : str)
| PList (l : list pyval)
| PDict (d : list (str * pyval)).

Definition dict := list (str * pyval).

(** [d.get(key)]: [None] when the key is absent. *)
Fixpoint dict_get (d : dict) (key : str) : pyval :=
  match d with
  | [] => PNone
  | (k, v) :: d' => if str_eqb k key then v else dict_get d' key
  end.

Fixpoint dict_mem (d : dict) (key : str) : bool :=
  match d with
  | [] => false
  | (k, _) :: d' => str_eqb k key || dict_mem d' key
  end.

(** [d[key] = v]: an existing key keeps its place, a new one goes last. *)
Fixpoint dict_set (d : dict) (key : str) (v : pyval) : dict :=
  match d with
  | [] => [(key, v)]
  | (k, x) :: d' =>
      if str_eqb k key then (k, v) :: d' else (k, x) :: dict_set d' key v
  end.

(** ** [json.dumps], with the default [ensure_ascii=True] and separators *)

Definition hex4_chars (n : N) : str :=
  [hexdigit (n / 4096 mod 16); hexdigit (n / 256 mod 16);
   hexdigit (n / 16 mod 16); hexdigit (n mod 16)].

(** One character of [encode_basestring_ascii].  Codes: 34 is the double
    quote, 92 the backslash, 117 the letter u. *)
Definition escape_char (c : char) : str :=
  if c =? 34 then [92; 34]
  else if c =? 92 then [92; 92]
  else if c =? 10 then [92; 110]
  else if c =? 13 then [92; 114]
  else if c =? 9 then [92; 116]
  else if c =? 12 then [92; 102]
  else if c =? 8 then [92; 98]
  else if (32 <=? c) && (c <=? 126) then [c]
  else if c <? 0x10000 then 92 :: 117 :: hex4_chars c
  else
    let v := c - 0x10000 in
    (92 :: 117 :: hex4_chars (0xD800 + v / 1024))
      ++ (92 :: 117 :: hex4_chars (0xDC00 + v mod 1024)).

Definition encode_basestring_ascii (s : str) : str :=
  34 :: flat_map escape_char s ++ [34].

Fixpoint uint_chars (u : Decimal.uint) : str :=
  match u with
  | Decimal.Nil => []
  | Decimal.D0 u' => 48 :: uint_chars u'
  | Decimal.D1 u' => 49 :: uint_chars u'
  | Decimal.D2 u' => 50 :: uint_chars u'
  | Decimal.D3 u' => 51 :: uint_chars u'
  | Decimal.D4 u' => 52 :: uint_chars u'
  | Decimal.D5 u' => 53 :: uint_chars u'
  | Decimal.D6 u' => 54 :: uint_chars u'
  | Decimal.D7 u' => 55 :: uint_chars u'
  | Decimal.D8 u' => 56 :: uint_chars u'
  | Decimal.D9 u' => 57 :: uint_chars u'
  end.

(** [int.__repr__] *)
Definition int_repr (z : Z) : str :=
  match Z.to_int z with
  | Decimal.Pos u => uint_chars u
  | Decimal.Neg u => 45 :: uint_chars u
  end.

Section App.

#[local] Set Default Proof Using "Type".

(** Floating point is not modelled: what [float.__repr__] prints for the
    float read from a literal, and whether that float is nonzero, are
    parameters of the development. *)
Variable float_repr : str -> str.
Variable float_bool : str -> bool.

Fixpoint json_dumps (v : pyval) : str :=
  match v with
  | PNone => lit "null"
  | PBool true => lit "true"
  | PBool false => lit "false"
  | PInt z => int_repr z
  | PFloat l => float_repr l
  | PStr s => encode_basestring_ascii s
  | PList l =>
      91 ::
      (fix items (l : list pyval) : str :=
         match l with
         | [] => []
         | [x] => json_dumps x
         | x :: l' => json_dumps x ++ lit ", " ++ items l'
         end) l ++ [93]
  | PDict d =>
      123 ::
      (fix items (d : list (str * pyval)) : str :=
         match d with
         | [] => []
         | [(k, x)] => encode_basestring_ascii k ++ lit ": " ++ json_dumps x
         | (k, x) :: d' =>
             encode_basestring_ascii k ++ lit ": " ++ json_dumps x
               ++ lit ", " ++ items d'
         end) d ++ [125]
  end.

(** The truth value of an object ([if stored: ...]). *)
Definition truthy (v : pyval) : bool :=
  match v with
  | PNone => false
  | PBool b => b
  | PInt z => negb (Z.eqb z 0)
  | PFloat l => float_bool l
  | PStr s => match s with [] => false | _ => true end
  | PList l => match l with [] => false | _ => true end
  | PDict d => match d with [] => false | _ => true end
  end.


(** ** [json.loads]

    The scanner of CPython's [_json] module.  [None] stands for
    [json.JSONDecodeError].  Character codes: 34 double quote, 92 backslash,
    123 and 125 braces, 91 and 93 brackets, 58 colon, 44 comma. *)

Definition is_ws (c : char) : bool :=
  (c =? 32) || (c =? 9) || (c =? 10) || (c =? 13).

Fixpoint skip_ws (s : str) : str :=
  match s with
  | [] => []
  | c :: s' => if is_ws c then skip_ws s' else s
  end.

Definition hex_value (c : char) : option N :=
  if digit_value c <? 16 then Some (digit_value c) else None.

Definition hex4 (a b c d : char) : option N :=
  match hex_value a, hex_value b, hex_value c, hex_value d with
  | Some x, Some y, Some z, Some t => Some (((x * 16 + y) * 16 + z) * 16 + t)
  | _, _, _, _ => None
  end.

Definition is_high_surrogate (c : N) : bool := (0xD800 <=? c) && (c <=? 0xDBFF).
Definition is_low_surrogate (c : N) : bool := (0xDC00 <=? c) && (c <=? 0xDFFF).
Definition join_surrogates (hi lo : N) : N :=
  0x10000 + (hi - 0xD800) * 1024 + (lo - 0xDC00).

(** The character a one-letter escape stands for. *)
Definition unescape (e : char) : option char :=
  if e =? 34 then Some 34
  else if e =? 92 then Some 92
  else if e =? 47 then Some 47
  else if e =? 98 then Some 8
  else if e =? 102 then Some 12
  else if e =? 110 then Some 10
  else if e =? 114 then Some 13
  else if e =? 116 then Some 9
  else None.

Definition cons_char (c : char) (r : option (str * str)) : option (str * str) :=
  match r with
  | Some (x, rest) => Some (c :: x, rest)
  | None => None
  end.

(** [scanstring] in strict mode, from the character after the opening
    quote: the decoded string and the input after the closing quote. *)
Fixpoint scanstring (s : str) : option (str * str) :=
  match s with
  | [] => None
  | c :: s1 =>
      if c =? 34 then Some ([], s1)
      else if c =? 92 then
        match s1 with
        | [] => None
        | e :: s2 =>
            if e =? 117 then
              match s2 with
              | h1 :: h2 :: h3 :: h4 :: s3 =>
                  match hex4 h1 h2 h3 h4 with
                  | None => None
                  | Some u =>
                      if is_high_surrogate u then
                        match s3 with
                        | b :: v :: l1 :: l2 :: l3 :: l4 :: s4 =>
                            if (b =? 92) && (v =? 117) then
                              match hex4 l1 l2 l3 l4 with
                              | None => None
                              | Some u2 =>
                                  if is_low_surrogate u2
                                  then cons_char (join_surrogates u u2)
                                                 (scanstring s4)
                                  else cons_char u (scanstring s3)
                              end
                            else cons_char u (scanstring s3)
                        | _ => cons_char u (scanstring s3)
                        end
                      else cons_char u (scanstring s3)
                  end
              | _ => None
              end
            else
              match unescape e with
              | Some x => cons_char x (scanstring s2)
              | None => None
              end
        end
      else if c <? 32 then None
      else cons_char c (scanstring s1)
  end.

Definition is_digit (c : char) : bool := (48 <=? c) && (c <=? 57).

(** The longest prefix of digits, and what follows it. *)
Fixpoint take_digits (s : str) : str * str :=
  match s with
  | [] => ([], [])
  | c :: s' =>
      if is_digit c
      then let r := take_digits s' in (c :: fst r, snd r)
      else ([], s)
  end.

Definition decimal_value (ds : str) : N :=
  fold_left (fun acc c => acc * 10 + (c - 48)) ds 0.

(** [_match_number]: an integer part, a fraction when a point is followed
    by a digit, an exponent when [e] or [E] is followed by digits, with an
    optional sign between. *)
Definition scan_number (s : str) : option (pyval * str) :=
  let sign_rest :=
    match s with
    | c :: r => if c =? 45 then (true, r) else (false, s)
    | [] => (false, s)
    end in
  let negative := fst sign_rest in
  match snd sign_rest with
  | [] => None
  | c :: r =>
      let int_rest :=
        if c =? 48 then Some ([c], r)
        else if is_digit c
        then let t := take_digits r in Some (c :: fst t, snd t)
        else None in
      match int_rest with
      | None => None
      | Some (ipart, r1) =>
          let frac_rest :=
            match r1 with
            | p :: d :: r' =>
                if (p =? 46) && is_digit d
                then let t := take_digits (d :: r') in (p :: fst t, snd t)
                else ([], r1)
            | _ => ([], r1)
            end in
          let r2 := snd frac_rest in
          let exp_rest :=
            match r2 with
            | e :: r' =>
                if (e =? 101) || (e =? 69) then
                  let sg :=
                    match r' with
                    | x :: r'' =>
                        if (x =? 45) || (x =? 43) then ([x], r'') else ([], r')
                    | [] => ([], r')
                    end in
                  let t := take_digits (snd sg) in
                  match fst t with
                  | [] => ([], r2)
                  | _ => (e :: fst sg ++ fst t, snd t)
                  end
                else ([], r2)
            | [] => ([], r2)
            end in
          let r3 := snd exp_rest in
          match fst frac_rest, fst exp_rest with
          | [], [] =>
              let m := Z.of_N (decimal_value ipart) in
              Some (PInt (if negative then Z.opp m else m), r3)
          | _, _ =>
              Some (PFloat ((if negative then [45] else [])
                              ++ ipart ++ fst frac_rest ++ fst exp_rest), r3)
          end
      end
  end.

(** [s] starts with the literal [word]: what follows it. *)
Fixpoint strip_prefix (word s : str) : option str :=
  match word, s with
  | [], _ => Some s
  | w :: word', c :: s' => if w =? c then strip_prefix word' s' else None
  | _ :: _, [] => None
  end.

Definition scan_constant (s : str) : option (pyval * str) :=
  match strip_prefix (lit "null") s with
  | Some r => Some (PNone, r)
  | None =>
  match strip_prefix (lit "true") s with
  | Some r => Some (PBool true, r)
  | None =>
  match strip_prefix (lit "false") s with
  | Some r => Some (PBool false, r)
  | None =>
  match strip_prefix (lit "NaN") s with
  | Some r => Some (PFloat (lit "NaN"), r)
  | None =>
  match strip_prefix (lit "Infinity") s with
  | Some r => Some (PFloat (lit "Infinity"), r)
  | None =>
  match strip_prefix (lit "-Infinity") s with
  | Some r => Some (PFloat (lit "-Infinity"), r)
  | None => scan_number s
  end end end end end end.

(** [scan_once] and the object and array parsers.  [s] starts at the first
    character of the value.  Between two nested calls at least one
    character is consumed, except when an array parser scans its first
    element, so a fuel above twice the length of the input is never
    exhausted. *)
Fixpoint scan_once (fuel : nat) (s : str) {struct fuel}
  : option (pyval * str) :=
  match fuel with
  | O => None
  | S fuel' =>
      match s with
      | [] => None
      | c :: s1 =>
          if c =? 34 then
            match scanstring s1 with
            | Some (x, r) => Some (PStr x, r)
            | None => None
            end
          else if c =? 123 then
            match skip_ws s1 with
            | [] => None
            | c2 :: s2 =>
                if c2 =? 125 then Some (PDict [], s2)
                else parse_members fuel' [] (c2 :: s2)
            end
          else if c =? 91 then
            match skip_ws s1 with
            | [] => None
            | c2 :: s2 =>
                if c2 =? 93 then Some (PList [], s2)
                else parse_elements fuel' [] (c2 :: s2)
            end
          else scan_constant s
      end
  end

with parse_members (fuel : nat) (acc : dict) (s : str) {struct fuel}
  : option (pyval * str) :=
  match fuel with
  | O => None
  | S fuel' =>
      match s with
      | [] => None
      | q :: s1 =>
          if q =? 34 then
            match scanstring s1 with
            | None => None
            | Some (key, s2) =>
                match skip_ws s2 with
                | [] => None
                | colon :: s3 =>
                    if colon =? 58 then
                      match scan_once fuel' (skip_ws s3) with
                      | None => None
                      | Some (v, s4) =>
                          let acc' := dict_set acc key v in
                          match skip_ws s4 with
                          | [] => None
                          | c :: s5 =>
                              if c =? 125 then Some (PDict acc', s5)
                              else if c =? 44
                              then parse_members fuel' acc' (skip_ws s5)
                              else None
                          end
                      end
                    else None
                end
            end
          else None
      end
  end

with parse_elements (fuel : nat) (acc : list pyval) (s : str) {struct fuel}
  : option (pyval * str) :=
  match fuel with
  | O => None
  | S fuel' =>
      match scan_once fuel' s with
      | None => None
      | Some (v, s1) =>
          match skip_ws s1 with
          | [] => None
          | c :: s2 =>
              if c =? 93 then Some (PList (acc ++ [v]), s2)
              else if c =? 44
              then parse_elements fuel' (acc ++ [v]) (skip_ws s2)
              else None
          end
      end
  end.

(** [json.loads(s)]: a leading byte order mark and trailing data are
    errors. *)
Definition json_loads (s : str) : result pyval :=
  match s with
  | 0xFEFF :: _ => Raise JSONDecodeError
  | _ =>
      match scan_once (2 * length s + 2) (skip_ws s) with
      | Some (v, rest) =>
          match skip_ws rest with
          | [] => Return v
          | _ :: _ => Raise JSONDecodeError
          end
      | None => Raise JSONDecodeError
      end
  end.

(** ** Users file management *)

Definition created_notice : str :=
  lit "Created " ++ USERS_FILE ++ lit " with default credentials: "
    ++ DEFAULT_ADMIN_username ++ lit " / " ++ DEFAULT_ADMIN_password.

Definition ensure_users_file (w : world) : result unit * world :=
  match users_file w with
  | Some _ => (Return tt, w)
  | None =>
      let hw := hash_password DEFAULT_ADMIN_password None w in
      match fst hw with
      | Raise e => (Raise e, snd hw)
      | Return hashed =>
          let content :=
            json_dumps (PDict [(DEFAULT_ADMIN_username, PStr hashed)]) in
          (Return tt, print created_notice (write_users_file content (snd hw)))
      end
  end.

Definition load_users (w : world) : result pyval * world :=
  let ew := ensure_users_file w in
  match fst ew with
  | Raise e => (Raise e, snd ew)
  | Return _ =>
      match users_file (snd ew) with
      | None => (Raise FileNotFoundError, snd ew)
      | Some content => (json_loads content, snd ew)
      end
  end.

Definition save_users (users : pyval) (w : world) : world :=
  write_users_file (json_dumps users) w.

(** ** Auth helpers *)

(** The session of a request: the value under the key ["user"], if any. *)
Definition session := option str.

Definition get_current_user (s : session) : option str := s.

(** ** Routes *)

(** The context of a template lists its entries other than the request. *)
Inductive response : Type :=
| RedirectResponse (url : str) (status_code : N)
| TemplateResponse (name : str) (context : list (string * pyval)).

Definition opt_str (o : option str) : pyval :=
  match o with
  | Some s => PStr s
  | None => PNone
  end.

(** [verify_password(password, stored)] on whatever object the store holds:
    [stored.split] raises [AttributeError] on anything but a [str], inside
    the [try]. *)
Definition verify_stored (password : str) (stored : pyval) : result bool :=
  match stored with
  | PStr s => verify_password password s
  | _ => except_Exception (Raise AttributeError) false
  end.

(** [next or "/"] *)
Definition next_or_root (next : option str) : str :=
  match next with
  | Some (c :: n) => c :: n
  | _ => lit "/"
  end.

Definition login_failed (next : option str) : response :=
  TemplateResponse (lit "login.html")
    [("next"%string, opt_str next);
     ("error"%string, PStr (lit "Invalid credentials"))].

Definition do_login (s : session) (username password : str)
  (next : option str) (w : world) : result response * session * world :=
  let lw := load_users w in
  match fst lw with
  | Raise e => (Raise e, s, snd lw)
  | Return (PDict users) =>
      let stored := dict_get users username in
      match
        (if truthy stored then verify_stored password stored
         else Return false)
      with
      | Raise e => (Raise e, s, snd lw)
      | Return true =>
          (Return (RedirectResponse (next_or_root next) 303),
           Some username, snd lw)
      | Return false => (Return (login_failed next), s, snd lw)
      end
  | Return _ => (Raise AttributeError, s, snd lw)   (* no method [get] *)
  end.

Definition change_password_page (username : str) (error success : option str)
  : response :=
  TemplateResponse (lit "change_password.html")
    [("user"%string, PStr username);
     ("error"%string, opt_str error);
     ("success"%string, opt_str success)].

Definition change_password (s : session) (current new_password confirm : str)
  (w : world) : result response * world :=
  match get_current_user s with
  | None =>
      (Return (RedirectResponse (lit "/login?next=/change-password") 303), w)
  | Some username =>
      let lw := load_users w in
      match fst lw with
      | Raise e => (Raise e, snd lw)
      | Return (PDict users) =>
          let stored := dict_get users username in
          match
            (if truthy stored then verify_stored current stored
             else Return false)
          with
          | Raise e => (Raise e, snd lw)
          | Return false =>
              (Return (change_password_page username
                         (Some (lit "Current password incorrect")) None),
               snd lw)
          | Return true =>
              if negb (str_eqb new_password confirm) then
                (Return (change_password_page username
                           (Some (lit "Passwords do not match")) None),
                 snd lw)
              else
                let hw := hash_password new_password None (snd lw) in
                match fst hw with
                | Raise e => (Raise e, snd hw)
                | Return hashed =>
                    (Return (change_password_page username None
                               (Some (lit "Password updated"))),
                     save_users
                       (PDict (dict_set users username (PStr hashed)))
                       (snd hw))
                end
          end
      | Return _ => (Raise AttributeError, snd lw)   (* no method [get] *)
      end
  end.


(** ** Excel helpers

    pandas is not modelled.  The type of a DataFrame, the content of an
    Excel file and the operations the routes call on them form an
    interface: [empty_frame] is [pd.DataFrame(columns=[...])] with the six
    column names, [to_excel df] the file [df.to_excel(EXCEL_FILE,
    index=False)] writes, [read_excel] is [pd.read_excel], [frame_len] is
    [len], [frame_concat_row df row] is
    [pd.concat([df, pd.DataFrame([row])], ignore_index=True)],
    [frame_set_row df idx cells] is [df.loc[idx] = cells] and
    [frame_row_dict df idx] is [df.iloc[idx].to_dict()]. *)
Class Pandas : Type := {
  frame : Type;
  xlsx : Type;
  empty_frame : frame;
  to_excel : frame -> xlsx;
  read_excel : xlsx -> result frame;
  frame_len : frame -> nat;
  frame_concat_row : frame -> list (string * pyval) -> frame;
  frame_set_row : frame -> Z -> list pyval -> result frame;
  frame_row_dict : frame -> Z -> pyval
}.

(** The state of [EXCEL_FILE]: its content, or [None] when there is no
    file. *)
Definition excel `{Pandas} : Type := option xlsx.

Definition load_data `{Pandas} (x : excel) : result frame * excel :=
  let content :=
    match x with
    | Some c => c
    | None => to_excel empty_frame
    end in
  (read_excel content, Some content).

Definition save_data `{Pandas} (df : frame) (x : excel) : excel :=
  Some (to_excel df).

(** ** More auth helpers and routes *)

(** [require_login]: [None] is the Python [None] it returns for a logged-in
    user.  The test is [not user], which an empty user name fails too. *)
Definition require_login (s : session) (path : str) : option response :=
  match get_current_user s with
  | Some (c :: user) => None
  | _ => Some (RedirectResponse (lit "/login?next=" ++ path) 303)
  end.

Definition login_page (next : option str) : response :=
  TemplateResponse (lit "login.html")
    [("next"%string, opt_str next); ("error"%string, PNone)].

(** [request.session.clear()] *)
Definition logout (s : session) : response * session :=
  (RedirectResponse (lit "/") 303, None).

Definition add_page (s : session) : response :=
  match get_current_user s with
  | None => RedirectResponse (lit "/login?next=/add") 303
  | Some user => TemplateResponse (lit "add.html") [("user"%string, PStr user)]
  end.

(** [c in s] for a one-character [c]. *)
Definition str_contains (c : char) (s : str) : bool := existsb (N.eqb c) s.

Definition new_row (name company connection_link email : str)
  (phone : option str) (role : str) : list (string * pyval) :=
  [("Name"%string, PStr name); ("Company"%string, PStr company);
   ("Connection Link"%string, PStr connection_link);
   ("Email"%string, PStr email); ("Phone No."%string, opt_str phone);
   ("Role"%string, PStr role)].

Definition add_record `{Pandas} (s : session)
  (name company connection_link email : str) (phone : option str)
  (role : str) (x : excel) : result response * excel :=
  match get_current_user s with
  | None => (Return (RedirectResponse (lit "/login?next=/add") 303), x)
  | Some user =>
      (* "@" not in email or "." not in email *)
      if negb (str_contains 64 email) || negb (str_contains 46 email) then
        (Return (TemplateResponse (lit "add.html")
                   [("user"%string, PStr user);
                    ("error"%string, PStr (lit "Invalid email"))]), x)
      else
        let lx := load_data x in
        match fst lx with
        | Raise e => (Raise e, snd lx)
        | Return df =>
            let df' :=
              frame_concat_row df
                (new_row name company connection_link email phone role) in
            (Return (RedirectResponse (lit "/") 303), save_data df' (snd lx))
        end
  end.

Definition update_page `{Pandas} (s : session) (idx : Z) (x : excel)
  : result response * excel :=
  match get_current_user s with
  | None =>
      (Return (RedirectResponse (lit "/login?next=/update/" ++ int_repr idx)
                 303), x)
  | Some user =>
      let lx := load_data x in
      match fst lx with
      | Raise e => (Raise e, snd lx)
      | Return df =>
          if (idx <? 0)%Z || (Z.of_nat (frame_len df) <=? idx)%Z then
            (Return (RedirectResponse (lit "/") 303), snd lx)
          else
            (Return (TemplateResponse (lit "update.html")
                       [("record"%string, frame_row_dict df idx);
                        ("idx"%string, PInt idx);
                        ("user"%string, PStr user)]), snd lx)
      end
  end.

Definition update_record `{Pandas} (s : session) (idx : Z)
  (name company connection_link email : str) (phone : option str)
  (role : str) (x : excel) : result response * excel :=
  match get_current_user s with
  | None =>
      (Return (RedirectResponse (lit "/login?next=/update/" ++ int_repr idx)
                 303), x)
  | Some user =>
      let lx := load_data x in
      match fst lx with
      | Raise e => (Raise e, snd lx)
      | Return df =>
          if (0 <=? idx)%Z && (idx <? Z.of_nat (frame_len df))%Z then
            match
              frame_set_row df idx
                [PStr name; PStr company; PStr connection_link; PStr email;
                 opt_str phone; PStr role]
            with
            | Raise e => (Raise e, snd lx)
            | Return df' =>
                (Return (RedirectResponse (lit "/") 303),
                 save_data df' (snd lx))
            end
          else (Return (RedirectResponse (lit "/") 303), snd lx)
      end
  end.

(** What [download_excel] answers: a response as above, or the file. *)
Inductive download : Type :=
| Page (r : response)
| FileResponse (path filename : str).

Definition EXCEL_FILE : str := lit "connections.xlsx".

Definition download_excel (s : session) : download :=
  match get_current_user s with
  | None => Page (RedirectResponse (lit "/login?next=/download") 303)
  | Some _ => FileResponse EXCEL_FILE (lit "connections.xlsx")
  end.

(** The route [GET /change-password] (the function [change_password_page]
    of the source; here that name is the template it renders). *)
Definition change_password_form (s : session) : response :=
  match get_current_user s with
  | None => RedirectResponse (lit "/login?next=/change-password") 303
  | Some user => change_password_page user None None
  end.


(** * Properties *)

(** ** The monad *)

(** Proofs below step through [bind] by rewriting with these equations
    rather than by conversion: a conversion that fails halfway would have
    the checker unfold the key derivation. *)
Lemma bind_ret {A B} (a : A) (k : A -> result B) : bind (Return a) k = k a.
Proof. reflexivity. Qed.

Lemma bind_raise {A B} (e : exn) (k : A -> result B) :
  bind (Raise e) k = Raise e.
Proof. reflexivity. Qed.

Lemma Return_inj {A} (a b : A) : Return a = Return b -> a = b.
Proof. intros H. inversion H. reflexivity. Qed.

Lemma except_Exception_returns {A} (body : result A) (h : A) :
  exists a, except_Exception body h = Return a.
Proof. destruct body as [a|e]; [exists a | exists h]; reflexivity. Qed.

(** ** Hexadecimal text *)

(** The characters of [bytes.hex]: digits and the letters a to f. *)
Definition hex_char (c : char) : bool :=
  is_digit c || ((97 <=? c) && (c <=? 102)).

Lemma byte_hex_chars (b : byte) : forallb hex_char (byte_hex b) = true.
Proof. destruct b; reflexivity. Qed.

Lemma bytes_hex_chars (bs : bytes) : forallb hex_char (bytes_hex bs) = true.
Proof.
  induction bs as [|b bs IH]; [reflexivity|].
  unfold bytes_hex in *. cbn [flat_map].
  rewrite forallb_app, byte_hex_chars, IH. reflexivity.
Qed.

Lemma forallb_weaken {A} (P Q : A -> bool) (l : list A) :
  (forall x, P x = true -> Q x = true) ->
  forallb P l = true -> forallb Q l = true.
Proof.
  intros HPQ. induction l as [|x l IH]; cbn; [reflexivity|].
  intros H. apply andb_true_iff in H as [Hx Hl].
  rewrite (HPQ _ Hx), (IH Hl). reflexivity.
Qed.

Ltac char_cases :=
  repeat match goal with
    | H : (_ && _) = true |- _ => apply andb_true_iff in H; destruct H
    | H : (_ || _) = true |- _ => apply orb_true_iff in H; destruct H
    | H : (_ <=? _) = true |- _ => apply N.leb_le in H
    | H : (_ <? _) = true |- _ => apply N.ltb_lt in H
    | H : (_ =? _) = true |- _ => apply N.eqb_eq in H
    | H : (_ <=? _) = false |- _ => apply N.leb_gt in H
    | H : (_ <? _) = false |- _ => apply N.ltb_ge in H
    | H : (_ =? _) = false |- _ => apply N.eqb_neq in H
    end.

Lemma hex_char_ascii (c : char) : hex_char c = true -> is_ascii c = true.
Proof.
  unfold hex_char, is_digit, is_ascii. intros H. char_cases;
    apply N.ltb_lt; lia.
Qed.

Lemma hex_char_not_dollar (c : char) :
  hex_char c = true -> negb (c =? DOLLAR) = true.
Proof.
  unfold hex_char, is_digit, DOLLAR. intros H.
  apply negb_true_iff, N.eqb_neq. char_cases; lia.
Qed.

Lemma bytes_hex_ascii (bs : bytes) : forallb is_ascii (bytes_hex bs) = true.
Proof.
  apply forallb_weaken with (P := hex_char);
    [apply hex_char_ascii | apply bytes_hex_chars].
Qed.

Lemma fromhex_loop_byte (b : byte) (s : str) :
  fromhex_loop (byte_hex b ++ s)
  = bs <- fromhex_loop s ;; Return (b :: bs).
Proof. destruct b; reflexivity. Qed.

Lemma fromhex_loop_hex (bs : bytes) : fromhex_loop (bytes_hex bs) = Return bs.
Proof.
  induction bs as [|b bs IH]; [reflexivity|].
  unfold bytes_hex in *. cbn [flat_map].
  rewrite fromhex_loop_byte, IH. reflexivity.
Qed.

(** [bytes.fromhex(b.hex()) == b] *)
Lemma bytes_fromhex_hex (bs : bytes) : bytes_fromhex (bytes_hex bs) = Return bs.
Proof.
  unfold bytes_fromhex. rewrite bytes_hex_ascii. apply fromhex_loop_hex.
Qed.

(** ** [split] *)

Lemma split_on_nonempty (sep : char) (s : str) : split_on sep s <> [].
Proof.
  destruct s as [|c s]; cbn; [discriminate|].
  destruct (c =? sep); [discriminate|].
  destruct (split_on sep s); discriminate.
Qed.

Lemma split_on_absent (sep : char) (a : str) :
  forallb (fun c => negb (c =? sep)) a = true -> split_on sep a = [a].
Proof.
  induction a as [|c a IH]; cbn; [reflexivity|].
  intros H. apply andb_true_iff in H as [Hc Ha].
  apply negb_true_iff in Hc. rewrite Hc, (IH Ha). reflexivity.
Qed.

Lemma split_on_first (sep : char) (a b : str) :
  forallb (fun c => negb (c =? sep)) a = true ->
  split_on sep (a ++ sep :: b) = a :: split_on sep b.
Proof.
  induction a as [|c a IH]; cbn.
  - intros _. rewrite N.eqb_refl. reflexivity.
  - intros H. apply andb_true_iff in H as [Hc Ha].
    apply negb_true_iff in Hc. rewrite Hc, (IH Ha). reflexivity.
Qed.

Lemma split_on_single (sep : char) (s f : str) :
  split_on sep s = [f] -> f = s.
Proof.
  revert f. induction s as [|c s IH]; cbn; intros f.
  - intros H. injection H as <-. reflexivity.
  - destruct (c =? sep).
    + intros H. injection H as _ H. exfalso. exact (split_on_nonempty _ _ H).
    + destruct (split_on sep s) as [|f' fs'] eqn:Hs.
      * exfalso. exact (split_on_nonempty _ _ Hs).
      * intros H. injection H as <- ->. f_equal. apply IH. reflexivity.
Qed.

Lemma split_on_several (sep : char) (s f g : str) (fs : list str) :
  split_on sep s = f :: g :: fs -> In sep s.
Proof.
  revert f g fs. induction s as [|c s IH]; cbn; intros f g fs.
  - discriminate.
  - destruct (c =? sep) eqn:Hc.
    + intros _. apply N.eqb_eq in Hc. auto.
    + destruct (split_on sep s) as [|f' [|g' fs']] eqn:Hs; try discriminate.
      intros _. right. eapply IH. reflexivity.
Qed.

Lemma bytes_hex_no_dollar (bs : bytes) :
  forallb (fun c => negb (c =? DOLLAR)) (bytes_hex bs) = true.
Proof.
  apply forallb_weaken with (P := hex_char);
    [apply hex_char_not_dollar | apply bytes_hex_chars].
Qed.

(** The stored form [salt_hex$hash_hex] splits into its two fields. *)
Lemma split_stored (salt dk : bytes) :
  split_on DOLLAR (bytes_hex salt ++ [DOLLAR] ++ bytes_hex dk)
  = [bytes_hex salt; bytes_hex dk].
Proof.
  cbn [app]. rewrite split_on_first by apply bytes_hex_no_dollar.
  rewrite split_on_absent by apply bytes_hex_no_dollar. reflexivity.
Qed.

(** ** The comparison *)


Lemma tscmp_loop_zero (left right : str) (acc : N) (n : nat) :
  length left = length right ->
  fst (tscmp_loop left right acc n) = 0 <-> acc = 0 /\ left = right.
Proof.
  revert left acc n. induction right as [|r right IH]; intros left acc n Hlen.
  - destruct left; [|discriminate]. cbn. tauto.
  - destruct left as [|l left]; [discriminate|]. cbn in Hlen.
    injection Hlen as Hlen. cbn. rewrite (IH _ _ _ Hlen).
    rewrite N.lor_eq_0_iff. split.
    + intros [[Ha Hx] ->]. apply N.lxor_eq in Hx. subst. auto.
    + intros [Ha Heq]. injection Heq as -> ->.
      rewrite N.lxor_nilpotent. auto.
Qed.

Lemma tscmp_loop_nonzero (left right : str) (acc : N) (n : nat) :
  acc <> 0 -> fst (tscmp_loop left right acc n) <> 0.
Proof.
  clear float_repr float_bool.
  revert left acc n. induction right as [|r right IH]; intros; cbn; auto.
  apply IH. rewrite N.lor_eq_0_iff. tauto.
Qed.

Lemma tscmp_true_iff (a b : str) : fst (tscmp a b) = true <-> a = b.
Proof.
  clear float_repr float_bool.
  unfold tscmp. destruct (Nat.eqb (length a) (length b)) eqn:Hlen; cbn.
  - apply Nat.eqb_eq in Hlen. rewrite N.eqb_eq, tscmp_loop_zero by exact Hlen.
    tauto.
  - apply Nat.eqb_neq in Hlen. split.
    + intros H. apply N.eqb_eq in H.
      exfalso. revert H. apply tscmp_loop_nonzero. discriminate.
    + intros ->. contradiction.
Qed.

Lemma compare_digest_differ (a b : str) :
  a <> b -> except_Exception (compare_digest a b) false = Return false.
Proof.
  intros Hne. unfold compare_digest.
  destruct (forallb is_ascii a && forallb is_ascii b); [|reflexivity].
  destruct (fst (tscmp a b)) eqn:Ht; [|reflexivity].
  apply tscmp_true_iff in Ht. contradiction.
Qed.

Lemma tscmp_refl (a : str) : fst (tscmp a a) = true.
Proof. apply tscmp_true_iff. reflexivity. Qed.



(** ** The key derivation *)

Lemma sha256_length (msg : bytes) : length (SHA256.sha256 msg) = 32%nat.
Proof. reflexivity. Qed.

Lemma hmac_sha256_length (key msg : bytes) :
  length (hmac_sha256 key msg) = 32%nat.
Proof. unfold hmac_sha256. apply sha256_length. Qed.

Lemma xor_bytes_length (a b : bytes) :
  length (xor_bytes a b) = Nat.min (length a) (length b).
Proof. unfold xor_bytes. rewrite length_map. apply length_combine. Qed.

Lemma pbkdf2_block_length (password salt : bytes) (c i : N) :
  length (pbkdf2_block password salt c i) = 32%nat.
Proof.
  unfold pbkdf2_block.
  set (Inv := fun ut : bytes * bytes =>
                length (fst ut) = 32%nat /\ length (snd ut) = 32%nat).
  assert (H : Inv (N.iter (c - 1) (pbkdf2_step password)
                     (hmac_sha256 password (salt ++ SHA256.word_bytes i),
                      hmac_sha256 password (salt ++ SHA256.word_bytes i)))).
  { apply N.iter_invariant.
    - intros [u t] [Hu Ht]. unfold Inv, pbkdf2_step. cbn [fst snd] in *.
      rewrite xor_bytes_length, !hmac_sha256_length, Ht. split; reflexivity.
    - split; apply hmac_sha256_length. }
  exact (proj2 H).
Qed.

(** The derived key of [hash_password] and [verify_password] has the 32
    bytes of a SHA-256 digest. *)
Lemma kdf_length (password salt : bytes) : length (kdf password salt) = 32%nat.
Proof.
  rewrite kdf_unseal. unfold pbkdf2_hmac_sha256, DIGEST_SIZE.
  change (Nat.div (32 + 31) 32) with 1%nat.
  change (seq 1 1) with [1%nat]. cbn [flat_map].
  rewrite app_nil_r, firstn_all2; rewrite pbkdf2_block_length; auto.
Qed.

(** HMAC pads a key shorter than the block of 64 bytes with zero bytes: a
    zero byte appended to such a key is not seen. *)
Lemma hmac_sha256_zero_padded (key msg : bytes) :
  (length key < 64)%nat ->
  hmac_sha256 (key ++ [x00]) msg = hmac_sha256 key msg.
Proof.
  clear float_repr float_bool.
  intros Hlen. unfold hmac_sha256.
  assert (H1 : Nat.ltb 64 (length (key ++ [x00])) = false)
    by (apply Nat.ltb_ge; rewrite length_app; cbn [length]; lia).
  assert (H2 : Nat.ltb 64 (length key) = false) by (apply Nat.ltb_ge; lia).
  rewrite H1, H2.
  assert (Hk : (key ++ [x00]) ++ repeat x00 (64 - length (key ++ [x00]))
               = key ++ repeat x00 (64 - length key)).
  { rewrite <- app_assoc, length_app. cbn [length app].
    replace (64 - length key)%nat with (S (64 - (length key + 1)))%nat by lia.
    reflexivity. }
  cbv zeta. rewrite Hk. reflexivity.
Qed.

Lemma N_iter_ext {A} (f g : A -> A) (n : N) (x : A) :
  (forall y, f y = g y) -> N.iter n f x = N.iter n g x.
Proof.
  intros Hfg. induction n as [|n IH] using N.peano_ind; [reflexivity|].
  rewrite !N.iter_succ, IH. apply Hfg.
Qed.

(** PBKDF2 sees its password through HMAC only. *)
Lemma pbkdf2_hmac_sha256_key (p q salt : bytes) (c : N) (dklen : nat) :
  (forall msg, hmac_sha256 p msg = hmac_sha256 q msg) ->
  pbkdf2_hmac_sha256 p salt c dklen = pbkdf2_hmac_sha256 q salt c dklen.
Proof.
  intros Hpq. unfold pbkdf2_hmac_sha256. f_equal.
  apply flat_map_ext. intros i. unfold pbkdf2_block. rewrite Hpq.
  f_equal. apply N_iter_ext. intros ut. unfold pbkdf2_step.
  rewrite Hpq. reflexivity.
Qed.

(** Two passwords that differ by a trailing zero byte have one derived key,
    under every salt. *)
Lemma kdf_zero_padded (pw salt : bytes) :
  (length pw < 64)%nat -> kdf (pw ++ [x00]) salt = kdf pw salt.
Proof.
  intros Hlen. rewrite !kdf_unseal. apply pbkdf2_hmac_sha256_key.
  intros msg. apply hmac_sha256_zero_padded. exact Hlen.
Qed.

(** ** UTF-8 *)

Lemma utf8_char_scalar (c : char) :
  scalar_value c = true -> exists b, utf8_char c = Return b.
Proof.
  unfold scalar_value, utf8_char. intros H.
  destruct (c <? 128) eqn:H1; [eauto|].
  destruct (c <? 2048) eqn:H2; [eauto|].
  destruct (c <? 65536) eqn:H3.
  - destruct ((55296 <=? c) && (c <=? 57343)) eqn:H4; [|eauto].
    exfalso. char_cases; lia.
  - destruct (c <? 1114112) eqn:H4; [eauto|].
    exfalso. char_cases; lia.
Qed.

Lemma utf8_char_raises (c : char) (e : exn) :
  utf8_char c = Raise e -> scalar_value c = false.
Proof.
  destruct (scalar_value c) eqn:H; [|reflexivity].
  destruct (utf8_char_scalar c H) as [b ->]. discriminate.
Qed.

(** [encode_utf8] succeeds exactly on the strings of scalar values. *)
Lemma encode_utf8_valid (s : str) :
  valid_text s = true -> exists b, encode_utf8 s = Return b.
Proof.
  induction s as [|c s IH]; cbn; [eauto|].
  intros H. apply andb_true_iff in H as [Hc Hs].
  destruct (utf8_char_scalar c Hc) as [b ->].
  destruct (IH Hs) as [bs ->]. cbn. eauto.
Qed.

Lemma encode_utf8_invalid (s : str) :
  valid_text s = false -> encode_utf8 s = Raise UnicodeEncodeError.
Proof.
  induction s as [|c s IH]; cbn; [discriminate|].
  intros H. apply andb_false_iff in H as [Hc|Hs].
  - assert (Hr : utf8_char c = Raise UnicodeEncodeError).
    { revert Hc. unfold scalar_value, utf8_char.
      destruct (c <? 128) eqn:H1.
      { intros H. exfalso. apply orb_false_iff in H as [H _]. char_cases; lia. }
      destruct (c <? 2048) eqn:H2.
      { intros H. exfalso. apply orb_false_iff in H as [H _]. char_cases; lia. }
      destruct (c <? 65536) eqn:H3.
      - destruct ((55296 <=? c) && (c <=? 57343)) eqn:H4; [reflexivity|].
        intros H. exfalso. apply orb_false_iff in H as [Ha Hb].
        apply andb_false_iff in H4. apply andb_false_iff in Hb.
        destruct H4, Hb; char_cases; lia.
      - destruct (c <? 1114112) eqn:H4; [|reflexivity].
        intros H. exfalso. apply orb_false_iff in H as [Ha Hb].
        apply andb_false_iff in Hb. destruct Hb; char_cases; lia. }
    rewrite Hr. reflexivity.
  - destruct (utf8_char c) as [b|e] eqn:Hc.
    + cbn. rewrite (IH Hs). reflexivity.
    + cbn. f_equal. revert Hc. unfold utf8_char.
      repeat match goal with
             | |- context [if ?b then _ else _] => destruct b
             end; intros H; inversion H; reflexivity.
Qed.


(** ** [hash_password] and [verify_password] *)

Lemma bytes_hex_inj (a b : bytes) : bytes_hex a = bytes_hex b -> a = b.
Proof.
  intros H. pose proof (bytes_fromhex_hex a) as Ha.
  rewrite H, bytes_fromhex_hex in Ha. congruence.
Qed.

Lemma hash_password_salted (p : str) (s : bytes) (w : world) :
  hash_password p (Some s) w
  = (pw <- encode_utf8 p ;;
     Return (bytes_hex s ++ [DOLLAR] ++ bytes_hex (kdf pw s)), w).
Proof. reflexivity. Qed.

Lemma hash_password_fresh (p : str) (w : world) :
  hash_password p None w
  = (fst (hash_password p (Some (fst (token_bytes 16 w))) w),
     snd (token_bytes 16 w)).
Proof. reflexivity. Qed.

(** What [verify_password] answers on a stored form with a hexadecimal salt
    field. *)
Lemma verify_password_stored (q : str) (pq salt : bytes) (hash_hex : str) :
  encode_utf8 q = Return pq ->
  verify_password q (bytes_hex salt ++ [DOLLAR] ++ hash_hex)
  = except_Exception (compare_digest (bytes_hex (kdf pq salt)) hash_hex) false.
Proof.
  intros Hq. unfold verify_password. cbn [app].
  rewrite split_on_first by apply bytes_hex_no_dollar.
  destruct (split_on DOLLAR hash_hex) as [|f [|g fs]] eqn:Hs.
  - exfalso. exact (split_on_nonempty _ _ Hs).
  - apply split_on_single in Hs as ->.
    rewrite bytes_fromhex_hex, bind_ret, Hq, bind_ret. reflexivity.
  - (* a dollar in [hash_hex]: too many fields on one side, an unequal
       comparison on the other *)
    cbn [except_Exception]. symmetry. apply compare_digest_differ.
    intros Heq.
    pose proof (split_on_several _ _ _ _ _ Hs) as Hin.
    pose proof (bytes_hex_no_dollar (kdf pq salt)) as Hn.
    rewrite forallb_forall in Hn. rewrite <- Heq in Hin.
    specialize (Hn _ Hin). rewrite N.eqb_refl in Hn.
    exact (Bool.diff_false_true Hn).
Qed.

Lemma verify_password_hash (p : str) (pw salt : bytes) :
  encode_utf8 p = Return pw ->
  verify_password p (bytes_hex salt ++ [DOLLAR] ++ bytes_hex (kdf pw salt))
  = Return true.
Proof.
  intros Hp. rewrite (verify_password_stored _ _ _ _ Hp).
  unfold compare_digest. rewrite bytes_hex_ascii, tscmp_refl. reflexivity.
Qed.

(** A password verifies against a stored hash exactly when its derived key
    under the stored salt is the stored one. *)
Lemma verify_password_iff (q : str) (pq salt dk : bytes) :
  encode_utf8 q = Return pq ->
  verify_password q (bytes_hex salt ++ [DOLLAR] ++ bytes_hex dk) = Return true
  <-> kdf pq salt = dk.
Proof.
  intros Hq. rewrite (verify_password_stored _ _ _ _ Hq).
  unfold compare_digest. rewrite !bytes_hex_ascii.
  cbn [andb except_Exception]. split.
  - intros H. apply Return_inj in H. apply tscmp_true_iff in H.
    apply bytes_hex_inj. exact H.
  - intros ->. rewrite tscmp_refl. reflexivity.
Qed.

Lemma token_bytes_length (n : nat) (w : world) :
  length (fst (token_bytes n w)) = n.
Proof. cbn. rewrite length_map. apply length_seq. Qed.

(** C1, as the code has it. Hashing then verifying succeeds for every
    password that [str.encode] accepts and every salt, given or drawn.  Two
    successive hashes of one password draw the 16 bytes at the cursor of the
    random source and the 16 bytes after them; both verify, and the two
    strings are equal exactly when the two salts drawn are equal. *)
Theorem hash_verify_roundtrip (p : str) (s : bytes) (w : world) :
  valid_text p = true ->
  (exists h,
      hash_password p (Some s) w = (Return h, w)
      /\ verify_password p h = Return true)
  /\ (let first := hash_password p None w in
      let second := hash_password p None (snd first) in
      let salt1 := map (entropy w) (seq (drawn w) 16) in
      let salt2 := map (entropy w) (seq (drawn w + 16) 16) in
      exists h1 h2,
        fst first = Return h1 /\ fst second = Return h2
        /\ hd [] (split_on DOLLAR h1) = bytes_hex salt1
        /\ hd [] (split_on DOLLAR h2) = bytes_hex salt2
        /\ verify_password p h1 = Return true
        /\ verify_password p h2 = Return true
        /\ (h1 = h2 <-> salt1 = salt2)).
Proof.
  intros Hp. destruct (encode_utf8_valid p Hp) as [pw Hpw]. split.
  - eexists. rewrite hash_password_salted, Hpw. cbn [bind]. split;
      [reflexivity | apply verify_password_hash; exact Hpw].
  - cbv zeta. rewrite !hash_password_fresh. cbn [fst snd].
    rewrite !hash_password_salted, Hpw. cbn [bind fst].
    change (fst (token_bytes 16 w))
      with (map (entropy w) (seq (drawn w) 16)).
    change (fst (token_bytes 16 (snd (token_bytes 16 w))))
      with (map (entropy w) (seq (drawn w + 16) 16)).
    do 2 eexists. split; [reflexivity|]. split; [reflexivity|].
    rewrite !split_stored. cbn [hd].
    split; [reflexivity|]. split; [reflexivity|].
    split; [apply verify_password_hash; exact Hpw|].
    split; [apply verify_password_hash; exact Hpw|].
    split.
    + intros Heq.
      apply (f_equal (split_on DOLLAR)) in Heq. rewrite !split_stored in Heq.
      apply (f_equal (hd [])) in Heq. apply bytes_hex_inj. exact Heq.
    + intros ->. reflexivity.
Qed.

(** C2. The stored form is the hexadecimal salt, a dollar and the
    hexadecimal derived key; the key is PBKDF2-HMAC-SHA256 of the UTF-8 bytes
    of the password over 200000 iterations and has 32 bytes; an omitted salt
    is 16 bytes of the random source; hashing valid text never raises. *)
Theorem hash_construction (p : str) (w : world) :
  valid_text p = true ->
  exists pw,
    encode_utf8 p = Return pw
    /\ ITERATIONS = 200000
    /\ (forall s,
          let dk := pbkdf2_hmac_sha256 pw s ITERATIONS DIGEST_SIZE in
          hash_password p (Some s) w
          = (Return (bytes_hex s ++ lit "$" ++ bytes_hex dk), w)
          /\ length dk = 32%nat)
    /\ (let salt := map (entropy w) (seq (drawn w) 16) in
        let dk := pbkdf2_hmac_sha256 pw salt ITERATIONS DIGEST_SIZE in
        length salt = 16%nat
        /\ hash_password p None w
           = (Return (bytes_hex salt ++ lit "$" ++ bytes_hex dk),
              mkWorld (users_file w) (entropy w) (drawn w + 16) (stdout w))).
Proof.
  intros Hp. destruct (encode_utf8_valid p Hp) as [pw Hpw]. exists pw.
  change (lit "$") with [DOLLAR].
  split; [exact Hpw|]. split; [reflexivity|]. split.
  - intros s dk. subst dk. split.
    + rewrite hash_password_salted, Hpw, bind_ret, kdf_unseal. reflexivity.
    + rewrite <- kdf_unseal. apply kdf_length.
  - intros salt dk. subst dk salt.
    split; [rewrite length_map; apply length_seq|].
    rewrite hash_password_fresh, hash_password_salted, Hpw, bind_ret.
    rewrite kdf_unseal. reflexivity.
Qed.

(** A stored string is malformed when it has not exactly two fields around
    the dollar or when its salt field is not hexadecimal. *)
Definition malformed (stored : str) : bool :=
  match split_on DOLLAR stored with
  | [salt_hex; _] =>
      match bytes_fromhex salt_hex with
      | Return _ => false
      | Raise _ => true
      end
  | _ => true
  end.

(** C3. [verify_password] returns a boolean on every password and every
    stored string and never raises; on a malformed stored string, the empty
    one included, it returns false. *)
Theorem verify_never_raises (p stored : str) :
  (exists b,
      verify_password p stored = Return b
      /\ (malformed stored = true -> b = false))
  /\ verify_password p [] = Return false
  /\ verify_password p (lit "not-a-valid-format") = Return false
  /\ verify_password p (lit "00$11$22") = Return false
  /\ verify_password p (lit "xyz$00") = Return false.
Proof.
  split; [|repeat split; reflexivity].
  unfold verify_password, malformed.
  destruct (split_on DOLLAR stored) as [|salt_hex [|hash_hex [|x fs]]];
    try (exists false; split; reflexivity).
  destruct (bytes_fromhex salt_hex) as [salt|e];
    [|exists false; split; reflexivity].
  cbn [bind].
  match goal with
  | |- exists b, except_Exception ?body false = _ /\ _ =>
      destruct (except_Exception_returns body false) as [b Hb]
  end.
  exists b. split; [exact Hb | discriminate].
Qed.




(** ** JSON strings: [scanstring] undoes [encode_basestring_ascii] *)

Ltac Zify.zify_post_hook ::= Z.to_euclidean_division_equations.

Lemma hex_value_hexdigit (x : N) : x < 16 -> hex_value (hexdigit x) = Some x.
Proof.
  intros Hx. unfold hex_value, digit_value, hexdigit.
  destruct (x <? 10) eqn:H10; char_cases.
  - replace ((48 <=? 48 + x) && (48 + x <=? 57)) with true
      by (symmetry; apply andb_true_iff; split; apply N.leb_le; lia).
    replace (48 + x - 48) with x by lia.
    replace (x <? 16) with true by (symmetry; apply N.ltb_lt; lia).
    reflexivity.
  - replace ((48 <=? 87 + x) && (87 + x <=? 57)) with false
      by (symmetry; apply andb_false_iff; right; apply N.leb_gt; lia).
    replace ((97 <=? 87 + x) && (87 + x <=? 122)) with true
      by (symmetry; apply andb_true_iff; split; apply N.leb_le; lia).
    replace (87 + x - 87) with x by lia.
    replace (x <? 16) with true by (symmetry; apply N.ltb_lt; lia).
    reflexivity.
Qed.

Lemma hex4_hex4_chars (n : N) :
  n < 65536 ->
  hex4 (hexdigit (n / 4096 mod 16)) (hexdigit (n / 256 mod 16))
       (hexdigit (n / 16 mod 16)) (hexdigit (n mod 16)) = Some n.
Proof.
  intros Hn. unfold hex4.
  rewrite !hex_value_hexdigit by lia. f_equal. lia.
Qed.

(** The equations of [scanstring] the proofs use. *)
Lemma scanstring_plain (c : char) (t : str) :
  c <> 34 -> c <> 92 -> 32 <= c ->
  scanstring (c :: t) = cons_char c (scanstring t).
Proof.
  intros H1 H2 H3. cbn [scanstring].
  apply N.eqb_neq in H1, H2. rewrite H1, H2.
  replace (c <? 32) with false by (symmetry; apply N.ltb_ge; exact H3).
  reflexivity.
Qed.

Lemma scanstring_u (h1 h2 h3 h4 : char) (t : str) (u : N) :
  hex4 h1 h2 h3 h4 = Some u -> is_high_surrogate u = false ->
  scanstring (92 :: 117 :: h1 :: h2 :: h3 :: h4 :: t)
  = cons_char u (scanstring t).
Proof.
  intros Hu Hs.
  change (scanstring (92 :: 117 :: h1 :: h2 :: h3 :: h4 :: t))
    with (match hex4 h1 h2 h3 h4 with
          | None => None
          | Some u =>
              if is_high_surrogate u then
                match t with
                | b :: v :: l1 :: l2 :: l3 :: l4 :: s4 =>
                    if (b =? 92) && (v =? 117) then
                      match hex4 l1 l2 l3 l4 with
                      | None => None
                      | Some u2 =>
                          if is_low_surrogate u2
                          then cons_char (join_surrogates u u2) (scanstring s4)
                          else cons_char u (scanstring t)
                      end
                    else cons_char u (scanstring t)
                | _ => cons_char u (scanstring t)
                end
              else cons_char u (scanstring t)
          end).
  rewrite Hu, Hs. reflexivity.
Qed.

Lemma scanstring_pair (h1 h2 h3 h4 l1 l2 l3 l4 : char) (t : str) (u u2 : N) :
  hex4 h1 h2 h3 h4 = Some u -> is_high_surrogate u = true ->
  hex4 l1 l2 l3 l4 = Some u2 -> is_low_surrogate u2 = true ->
  scanstring (92 :: 117 :: h1 :: h2 :: h3 :: h4
                :: 92 :: 117 :: l1 :: l2 :: l3 :: l4 :: t)
  = cons_char (join_surrogates u u2) (scanstring t).
Proof.
  intros Hu Hs Hu2 Hs2.
  change (scanstring (92 :: 117 :: h1 :: h2 :: h3 :: h4
                        :: 92 :: 117 :: l1 :: l2 :: l3 :: l4 :: t))
    with (match hex4 h1 h2 h3 h4 with
          | None => None
          | Some u =>
              if is_high_surrogate u then
                match hex4 l1 l2 l3 l4 with
                | None => None
                | Some u2 =>
                    if is_low_surrogate u2
                    then cons_char (join_surrogates u u2) (scanstring t)
                    else cons_char u
                           (scanstring
                              (92 :: 117 :: l1 :: l2 :: l3 :: l4 :: t))
                end
              else cons_char u
                     (scanstring (92 :: 117 :: l1 :: l2 :: l3 :: l4 :: t))
          end).
  rewrite Hu, Hs, Hu2, Hs2. reflexivity.
Qed.

(** One escaped character is read back as the character. *)
Lemma scanstring_escape_char (c : char) (t : str) :
  scalar_value c = true ->
  scanstring (escape_char c ++ t) = cons_char c (scanstring t).
Proof.
  clear float_repr float_bool.
  intros Hc. unfold escape_char.
  destruct (c =? 34) eqn:E1; [apply N.eqb_eq in E1; subst; reflexivity|].
  destruct (c =? 92) eqn:E2; [apply N.eqb_eq in E2; subst; reflexivity|].
  destruct (c =? 10) eqn:E3; [apply N.eqb_eq in E3; subst; reflexivity|].
  destruct (c =? 13) eqn:E4; [apply N.eqb_eq in E4; subst; reflexivity|].
  destruct (c =? 9) eqn:E5; [apply N.eqb_eq in E5; subst; reflexivity|].
  destruct (c =? 12) eqn:E6; [apply N.eqb_eq in E6; subst; reflexivity|].
  destruct (c =? 8) eqn:E7; [apply N.eqb_eq in E7; subst; reflexivity|].
  destruct ((32 <=? c) && (c <=? 126)) eqn:E8.
  - cbn [app]. char_cases. apply scanstring_plain; lia.
  - unfold scalar_value in Hc.
    destruct (c <? 65536) eqn:E9.
    + cbn [hex4_chars app]. apply scanstring_u.
      * apply hex4_hex4_chars. char_cases; lia.
      * unfold is_high_surrogate. apply andb_false_iff.
        char_cases; [left | right]; apply N.leb_gt; lia.
    + cbn [hex4_chars app].
      assert (Hr : 65536 <= c < 1114112) by (char_cases; lia).
      replace c with
        (join_surrogates (55296 + (c - 65536) / 1024)
                         (56320 + (c - 65536) mod 1024)) at 9
        by (unfold join_surrogates; lia).
      apply scanstring_pair.
      * apply hex4_hex4_chars. lia.
      * unfold is_high_surrogate. apply andb_true_iff.
        split; apply N.leb_le; lia.
      * apply hex4_hex4_chars. lia.
      * unfold is_low_surrogate. apply andb_true_iff.
        split; apply N.leb_le; lia.
Qed.

Lemma scanstring_escape (s t : str) :
  valid_text s = true ->
  scanstring (flat_map escape_char s ++ 34 :: t) = Some (s, t).
Proof.
  induction s as [|c s IH]; intros Hs.
  - reflexivity.
  - cbn in Hs. apply andb_true_iff in Hs as [Hc Hs].
    cbn [flat_map]. rewrite <- app_assoc, scanstring_escape_char by exact Hc.
    rewrite (IH Hs). reflexivity.
Qed.

(** [json.loads] reads back a string that [json.dumps] wrote. *)
Lemma scan_once_string (fuel : nat) (s t : str) :
  valid_text s = true ->
  scan_once (S fuel) (encode_basestring_ascii s ++ t) = Some (PStr s, t).
Proof.
  intros Hs. unfold encode_basestring_ascii.
  cbn [app scan_once]. rewrite N.eqb_refl.
  rewrite <- app_assoc. cbn [app]. rewrite scanstring_escape by exact Hs.
  reflexivity.
Qed.


(** ** Dictionaries *)

Lemma str_eqb_eq (a b : str) : str_eqb a b = true <-> a = b.
Proof.
  unfold str_eqb. destruct (list_eq_dec N.eq_dec a b); split;
    congruence.
Qed.

Lemma str_eqb_refl (a : str) : str_eqb a a = true.
Proof. apply str_eqb_eq. reflexivity. Qed.

Lemma str_eqb_neq (a b : str) : str_eqb a b = false <-> a <> b.
Proof.
  unfold str_eqb. destruct (list_eq_dec N.eq_dec a b); split;
    congruence.
Qed.

Lemma dict_get_absent (d : dict) (k : str) :
  dict_mem d k = false -> dict_get d k = PNone.
Proof.
  induction d as [|[k' v] d IH]; cbn; [reflexivity|].
  destruct (str_eqb k' k); cbn; [discriminate | exact IH].
Qed.

Lemma dict_set_absent (d : dict) (k : str) (v : pyval) :
  dict_mem d k = false -> dict_set d k v = d ++ [(k, v)].
Proof.
  induction d as [|[k' x] d IH]; cbn; [reflexivity|].
  destruct (str_eqb k' k); cbn; [discriminate|].
  intros H. rewrite (IH H). reflexivity.
Qed.

Lemma dict_mem_app (d e : dict) (k : str) :
  dict_mem (d ++ e) k = dict_mem d k || dict_mem e k.
Proof.
  induction d as [|[k' x] d IH]; cbn; [reflexivity|].
  rewrite IH. apply orb_assoc.
Qed.

(** Assigning to a key leaves every other key alone, and keeps the keys
    when the key was there. *)
Lemma dict_get_set_other (d : dict) (k k' : str) (v : pyval) :
  k' <> k -> dict_get (dict_set d k v) k' = dict_get d k'.
Proof.
  intros Hne. induction d as [|[k0 x] d IH]; cbn.
  - apply str_eqb_neq in Hne.
    replace (str_eqb k k') with false; [reflexivity|].
    symmetry. apply str_eqb_neq. apply str_eqb_neq in Hne. congruence.
  - destruct (str_eqb k0 k) eqn:E; cbn.
    + apply str_eqb_eq in E. subst k0.
      replace (str_eqb k k') with false; [reflexivity|].
      symmetry. apply str_eqb_neq. congruence.
    + destruct (str_eqb k0 k'); [reflexivity | exact IH].
Qed.

Lemma dict_get_set_same (d : dict) (k : str) (v : pyval) :
  dict_get (dict_set d k v) k = v.
Proof.
  induction d as [|[k0 x] d IH]; cbn.
  - rewrite str_eqb_refl. reflexivity.
  - destruct (str_eqb k0 k) eqn:E; cbn; rewrite E; [reflexivity | exact IH].
Qed.

Lemma dict_mem_set_other (d : dict) (k k' : str) (v : pyval) :
  k' <> k -> dict_mem (dict_set d k v) k' = dict_mem d k'.
Proof.
  intros Hne. induction d as [|[k0 x] d IH]; cbn.
  - replace (str_eqb k k') with false; [reflexivity|].
    symmetry. apply str_eqb_neq. congruence.
  - destruct (str_eqb k0 k) eqn:E; cbn; [reflexivity|].
    rewrite IH. reflexivity.
Qed.

Lemma dict_keys_set_present (d : dict) (k : str) (v : pyval) :
  dict_mem d k = true -> map fst (dict_set d k v) = map fst d.
Proof.
  induction d as [|[k0 x] d IH]; cbn; [discriminate|].
  destruct (str_eqb k0 k) eqn:E; cbn; [reflexivity|].
  intros H. rewrite (IH H). reflexivity.
Qed.

Lemma dict_mem_keys (d : dict) (k : str) :
  dict_mem d k = true <-> In k (map fst d).
Proof.
  clear float_repr float_bool.
  induction d as [|[k0 x] d IH]; cbn; [split; [discriminate | tauto]|].
  rewrite orb_true_iff, IH, str_eqb_eq. tauto.
Qed.

(** A store of the declared type [Dict[str, str]]: the keys are distinct,
    keys and values are strings of valid text. *)
Fixpoint str_store (d : dict) : bool :=
  match d with
  | [] => true
  | (k, v) :: d' =>
      valid_text k
      && match v with PStr x => valid_text x | _ => false end
      && negb (dict_mem d' k)
      && str_store d'
  end.

Lemma str_store_set (d : dict) (k x : str) :
  str_store d = true -> valid_text k = true -> valid_text x = true ->
  str_store (dict_set d k (PStr x)) = true.
Proof.
  induction d as [|[k0 v] d IH]; cbn; intros Hd Hk Hx.
  - rewrite Hk, Hx. reflexivity.
  - repeat (apply andb_true_iff in Hd; destruct Hd as [Hd ?]).
    destruct (str_eqb k0 k) eqn:E; cbn.
    + apply str_eqb_eq in E. subst k0.
      rewrite Hk, Hx. cbn. apply andb_true_iff. split; assumption.
    + rewrite Hd. destruct v; try discriminate.
      rewrite dict_mem_set_other
        by (apply str_eqb_neq in E; congruence).
      repeat (apply andb_true_iff; split); auto.
Qed.


(** ** JSON objects: [json.loads] undoes [json.dumps] on a store *)

(** The text after the opening brace of a dumped [dict]. *)
Definition members_text (d : dict) : str := tl (json_dumps (PDict d)).

Lemma json_dumps_dict (d : dict) :
  json_dumps (PDict d) = 123 :: members_text d.
Proof. reflexivity. Qed.

Lemma members_text_cons (k : str) (v : pyval) (d : dict) :
  members_text ((k, v) :: d)
  = encode_basestring_ascii k ++ lit ": " ++ json_dumps v
      ++ match d with
         | [] => [125]
         | _ :: _ => lit ", " ++ members_text d
         end.
Proof.
  unfold members_text. destruct d as [|[k' v'] d].
  - cbn [json_dumps tl]. rewrite <- !app_assoc. reflexivity.
  - cbn [json_dumps tl]. rewrite <- !app_assoc. reflexivity.
Qed.

Lemma members_text_length (d : dict) : (length d <= length (members_text d))%nat.
Proof.
  clear float_bool.
  induction d as [|[k v] d IH]; [cbn; lia|].
  rewrite members_text_cons. rewrite !length_app.
  destruct d as [|p d].
  - unfold encode_basestring_ascii. cbn [length]. lia.
  - rewrite length_app. change (lit ", ") with [44; 32].
    cbn [length] in *. lia.
Qed.

Lemma members_text_head (k : str) (v : pyval) (d : dict) :
  exists t, members_text ((k, v) :: d) = 34 :: t.
Proof.
  rewrite members_text_cons. unfold encode_basestring_ascii. cbn [app].
  eexists. reflexivity.
Qed.

(** One member: a key, a colon and a space, then the value. *)
Lemma parse_members_key (fuel : nat) (acc : dict) (k t : str) :
  valid_text k = true ->
  parse_members (S fuel) acc (encode_basestring_ascii k ++ lit ": " ++ t)
  = match scan_once fuel (skip_ws t) with
    | None => None
    | Some (v, s4) =>
        match skip_ws s4 with
        | [] => None
        | c :: s5 =>
            if c =? 125 then Some (PDict (dict_set acc k v), s5)
            else if c =? 44
            then parse_members fuel (dict_set acc k v) (skip_ws s5)
            else None
        end
    end.
Proof.
  intros Hk. unfold encode_basestring_ascii.
  cbn [app parse_members]. rewrite N.eqb_refl.
  rewrite <- app_assoc. cbn [app]. rewrite scanstring_escape by exact Hk.
  reflexivity.
Qed.

Lemma skip_ws_string (x t : str) :
  skip_ws (encode_basestring_ascii x ++ t) = encode_basestring_ascii x ++ t.
Proof. reflexivity. Qed.

Lemma parse_members_text (d : dict) :
  forall (acc : dict) (fuel : nat) (rest : str),
    d <> [] ->
    str_store d = true ->
    (forall k, dict_mem d k = true -> dict_mem acc k = false) ->
    (length d < fuel)%nat ->
    parse_members fuel acc (members_text d ++ rest)
    = Some (PDict (acc ++ d), rest).
Proof.
  clear float_bool.
  induction d as [|[k v] d IH]; intros acc fuel rest Hne Hst Hacc Hfuel;
    [contradiction|].
  cbn [str_store] in Hst.
  repeat (apply andb_true_iff in Hst; destruct Hst as [Hst ?]).
  destruct v as [| | | |x| |]; try discriminate.
  assert (Hk : dict_mem acc k = false).
  { apply Hacc. cbn. rewrite str_eqb_refl. reflexivity. }
  destruct fuel as [|fuel]; [cbn in Hfuel; lia|].
  rewrite members_text_cons, <- !app_assoc.
  rewrite parse_members_key by exact Hst.
  destruct fuel as [|fuel]; [cbn in Hfuel; lia|].
  cbn [json_dumps]. rewrite skip_ws_string.
  rewrite scan_once_string by assumption.
  rewrite dict_set_absent by exact Hk.
  destruct d as [|[k' v'] d'].
  - reflexivity.
  - destruct (members_text_head k' v' d') as [t Ht].
    rewrite <- app_assoc, Ht. change (lit ", ") with [44; 32].
    cbn [app].
    (* a comma, a space, then the quote of the next key *)
    lazymatch goal with
    | |- ?L = _ =>
        change L with (parse_members (S fuel) (acc ++ [(k, PStr x)])
                         ((34 :: t) ++ rest))
    end.
    rewrite <- Ht.
    rewrite IH; try assumption; try discriminate.
    + rewrite <- app_assoc. reflexivity.
    + intros k0 Hk0. rewrite dict_mem_app. cbn [dict_mem].
      rewrite (Hacc k0)
        by (cbn [dict_mem] in *; rewrite Hk0; apply orb_true_r).
      rewrite orb_false_r. cbn [orb].
      destruct (str_eqb k k0) eqn:E; [|reflexivity].
      apply str_eqb_eq in E. subst k0.
      match goal with
      | Hn : negb (dict_mem _ k) = true |- _ =>
          apply negb_true_iff in Hn; rewrite Hn in Hk0; discriminate
      end.
    + cbn [length] in *. lia.
Qed.


Lemma scan_once_object (fuel : nat) (t : str) :
  scan_once (S fuel) (123 :: 34 :: t) = parse_members fuel [] (34 :: t).
Proof. reflexivity. Qed.

Lemma json_loads_brace (m : str) :
  json_loads (123 :: m)
  = match scan_once (2 * length (123 :: m) + 2) (123 :: m) with
    | Some (v, rest) =>
        match skip_ws rest with
        | [] => Return v
        | _ :: _ => Raise JSONDecodeError
        end
    | None => Raise JSONDecodeError
    end.
Proof. reflexivity. Qed.

(** [json.loads(json.dumps(d)) == d] for a store [d]. *)
Lemma json_loads_dumps_store (d : dict) :
  str_store d = true -> json_loads (json_dumps (PDict d)) = Return (PDict d).
Proof.
  clear float_bool.
  intros Hd. destruct d as [|[k v] d]; [reflexivity|].
  rewrite json_dumps_dict, json_loads_brace.
  destruct (members_text_head k v d) as [t Ht].
  pose proof (members_text_length ((k, v) :: d)) as Hlen.
  replace (2 * length (123%N :: members_text ((k, v) :: d)) + 2)%nat
    with (S (2 * length (members_text ((k, v) :: d)) + 3))
    by (cbn [length]; unfold char; lia).
  rewrite Ht at 2. rewrite scan_once_object, <- Ht.
  rewrite <- (app_nil_r (members_text ((k, v) :: d))) at 2.
  rewrite parse_members_text; [reflexivity | discriminate | exact Hd | | lia].
  intros. reflexivity.
Qed.


(** ** The users file *)

Lemma hex_char_scalar (c : char) : hex_char c = true -> scalar_value c = true.
Proof.
  unfold hex_char, is_digit, scalar_value. intros H.
  apply orb_true_iff. left. apply N.ltb_lt. char_cases; lia.
Qed.

Lemma bytes_hex_scalar (bs : bytes) :
  forallb scalar_value (bytes_hex bs) = true.
Proof.
  apply forallb_weaken with (P := hex_char);
    [apply hex_char_scalar | apply bytes_hex_chars].
Qed.

(** A stored hash is valid text. *)
Lemma valid_text_stored (salt dk : bytes) :
  valid_text (bytes_hex salt ++ [DOLLAR] ++ bytes_hex dk) = true.
Proof.
  unfold valid_text. rewrite !forallb_app, !bytes_hex_scalar. reflexivity.
Qed.

Lemma ensure_users_file_present (w : world) :
  users_file w <> None -> ensure_users_file w = (Return tt, w).
Proof.
  unfold ensure_users_file. destruct (users_file w); [reflexivity|].
  intros H. contradiction.
Qed.

Lemma load_users_present (w : world) (content : str) :
  users_file w = Some content -> load_users w = (json_loads content, w).
Proof.
  intros Hf. unfold load_users.
  rewrite ensure_users_file_present by (rewrite Hf; discriminate).
  cbn [fst snd]. rewrite Hf. reflexivity.
Qed.

Lemma load_users_keeps_present (w w1 : world) (r : result pyval) :
  load_users w = (r, w1) -> users_file w <> None -> w1 = w.
Proof.
  intros Hl Hf. destruct (users_file w) as [content|] eqn:E;
    [|contradiction].
  rewrite (load_users_present w content E) in Hl.
  apply (f_equal snd) in Hl. symmetry. exact Hl.
Qed.

Lemma default_password_bytes :
  exists pw, encode_utf8 DEFAULT_ADMIN_password = Return pw.
Proof. eexists. reflexivity. Qed.

(** What [hash_password] returns with a salt drawn from the random source. *)
Lemma hash_password_drawn (p : str) (pw : bytes) (w : world) :
  encode_utf8 p = Return pw ->
  hash_password p None w
  = (Return (bytes_hex (fst (token_bytes 16 w)) ++ [DOLLAR]
               ++ bytes_hex (kdf pw (fst (token_bytes 16 w)))),
     snd (token_bytes 16 w)).
Proof.
  intros Hp. rewrite hash_password_fresh, hash_password_salted, Hp, bind_ret.
  reflexivity.
Qed.

(** The first run: the file is created with the default account. *)
Lemma ensure_users_file_absent (w : world) (pw : bytes) :
  users_file w = None ->
  encode_utf8 DEFAULT_ADMIN_password = Return pw ->
  let salt := fst (token_bytes 16 w) in
  let hashed := bytes_hex salt ++ [DOLLAR] ++ bytes_hex (kdf pw salt) in
  ensure_users_file w
  = (Return tt,
     print created_notice
       (write_users_file
          (json_dumps (PDict [(DEFAULT_ADMIN_username, PStr hashed)]))
          (snd (token_bytes 16 w)))).
Proof.
  intros Hf Hp salt hashed. unfold ensure_users_file. rewrite Hf.
  rewrite (hash_password_drawn _ _ _ Hp). reflexivity.
Qed.

(** Reading back a store that was just written. *)
Lemma load_users_written (w : world) (d : dict) :
  str_store d = true ->
  users_file w = Some (json_dumps (PDict d)) ->
  load_users w = (Return (PDict d), w).
Proof.
  intros Hd Hf. rewrite (load_users_present _ _ Hf).
  rewrite json_loads_dumps_store by exact Hd. reflexivity.
Qed.



(** ** The routes *)

Lemma verify_password_returns (p stored : str) :
  exists b, verify_password p stored = Return b.
Proof. unfold verify_password. apply except_Exception_returns. Qed.

Lemma verify_stored_returns (p : str) (stored : pyval) :
  exists b, verify_stored p stored = Return b.
Proof.
  destruct stored; try (exists false; reflexivity).
  apply verify_password_returns.
Qed.

(** An object that is false in a condition never verifies, so the guard
    [stored and verify_password(...)] is [verify_password] alone. *)
Lemma verify_stored_falsy (p : str) (stored : pyval) :
  truthy stored = false -> verify_stored p stored = Return false.
Proof.
  destruct stored as [| | | |s| |]; try reflexivity.
  destruct s; [reflexivity | discriminate].
Qed.

Lemma guard_is_verify (p : str) (stored : pyval) :
  (if truthy stored then verify_stored p stored else Return false)
  = verify_stored p stored.
Proof.
  destruct (truthy stored) eqn:E; [reflexivity|].
  symmetry. apply verify_stored_falsy. exact E.
Qed.

Lemma verify_stored_absent (p : str) (users : dict) (username : str) :
  dict_mem users username = false ->
  verify_stored p (dict_get users username) = Return false.
Proof. intros H. rewrite (dict_get_absent _ _ H). reflexivity. Qed.

Lemma verify_stored_present (p : str) (users : dict) (username : str) :
  verify_stored p (dict_get users username) = Return true ->
  dict_mem users username = true.
Proof.
  intros H. destruct (dict_mem users username) eqn:E; [reflexivity|].
  rewrite (verify_stored_absent p _ _ E) in H. discriminate.
Qed.

Lemma do_login_verify (s : session) (username password : str)
  (next : option str) (w w1 : world) (users : dict) :
  load_users w = (Return (PDict users), w1) ->
  do_login s username password next w
  = match verify_stored password (dict_get users username) with
    | Raise e => (Raise e, s, w1)
    | Return true =>
        (Return (RedirectResponse (next_or_root next) 303), Some username, w1)
    | Return false => (Return (login_failed next), s, w1)
    end.
Proof.
  intros Hl. unfold do_login. rewrite Hl. cbn [fst snd].
  rewrite guard_is_verify. reflexivity.
Qed.

Lemma change_password_verify (username current new_password confirm : str)
  (w w1 : world) (users : dict) :
  load_users w = (Return (PDict users), w1) ->
  change_password (Some username) current new_password confirm w
  = match verify_stored current (dict_get users username) with
    | Raise e => (Raise e, w1)
    | Return false =>
        (Return (change_password_page username
                   (Some (lit "Current password incorrect")) None), w1)
    | Return true =>
        if negb (str_eqb new_password confirm) then
          (Return (change_password_page username
                     (Some (lit "Passwords do not match")) None), w1)
        else
          match fst (hash_password new_password None w1) with
          | Raise e => (Raise e, snd (hash_password new_password None w1))
          | Return hashed =>
              (Return (change_password_page username None
                         (Some (lit "Password updated"))),
               save_users (PDict (dict_set users username (PStr hashed)))
                 (snd (hash_password new_password None w1)))
          end
    end.
Proof.
  intros Hl. unfold change_password, get_current_user. rewrite Hl.
  cbn [fst snd]. rewrite guard_is_verify. reflexivity.
Qed.

(** C5. With no users file, [ensure_users_file] creates one holding the
    single entry of the default administrator with a hash of the default
    password; [load_users] then returns exactly that mapping and the default
    password verifies against the stored hash.  An existing file is left
    as it is. *)
Theorem bootstrap (w : world) :
  (users_file w = None ->
   exists hashed,
     fst (hash_password DEFAULT_ADMIN_password None w) = Return hashed
     /\ fst (ensure_users_file w) = Return tt
     /\ users_file (snd (ensure_users_file w))
        = Some (json_dumps (PDict [(DEFAULT_ADMIN_username, PStr hashed)]))
     /\ load_users (snd (ensure_users_file w))
        = (Return (PDict [(DEFAULT_ADMIN_username, PStr hashed)]),
           snd (ensure_users_file w))
     /\ verify_password DEFAULT_ADMIN_password hashed = Return true)
  /\ (users_file w <> None -> ensure_users_file w = (Return tt, w)).
Proof.
  split; [|apply ensure_users_file_present].
  intros Hf. destruct default_password_bytes as [pw Hpw].
  eexists. rewrite (hash_password_drawn _ _ _ Hpw).
  rewrite (ensure_users_file_absent w pw Hf Hpw). cbn [fst snd].
  split; [reflexivity|]. split; [reflexivity|]. split; [reflexivity|].
  split; [|apply verify_password_hash; exact Hpw].
  apply load_users_written; [|reflexivity].
  cbn [str_store dict_mem negb andb]. rewrite valid_text_stored.
  reflexivity.
Qed.

(** C6. A change of password is rejected without any write: when the
    current password does not verify, with "Current password incorrect";
    when it verifies and the confirmation differs, with "Passwords do not
    match".  The world afterwards is the one [load_users] left, which is the
    initial one whenever the users file exists. *)
Theorem change_password_rejected
  (username current new_password confirm : str) (w w1 : world) (users : dict) :
  load_users w = (Return (PDict users), w1) ->
  (verify_stored current (dict_get users username) = Return false ->
   change_password (Some username) current new_password confirm w
   = (Return (change_password_page username
                (Some (lit "Current password incorrect")) None), w1))
  /\ (verify_stored current (dict_get users username) = Return true ->
      new_password <> confirm ->
      change_password (Some username) current new_password confirm w
      = (Return (change_password_page username
                   (Some (lit "Passwords do not match")) None), w1))
  /\ (users_file w <> None -> w1 = w).
Proof.
  intros Hl. rewrite (change_password_verify _ _ _ _ _ _ _ Hl).
  split; [|split].
  - intros ->. reflexivity.
  - intros -> Hne. apply str_eqb_neq in Hne. rewrite Hne. reflexivity.
  - apply (load_users_keeps_present _ _ _ Hl).
Qed.

(** C8. With the store loaded, a login succeeds, binding the session to the
    user name, exactly when the user name is in the store and the password
    verifies against its stored hash; an absent user name and a wrong
    password give the same "Invalid credentials" answer and leave the
    session as it was. *)
Theorem login_outcome (s : session) (username password : str)
  (next : option str) (w w1 : world) (users : dict) :
  load_users w = (Return (PDict users), w1) ->
  (dict_mem users username = true ->
   verify_stored password (dict_get users username) = Return true ->
   do_login s username password next w
   = (Return (RedirectResponse (next_or_root next) 303), Some username, w1))
  /\ (dict_mem users username = false ->
      do_login s username password next w
      = (Return (login_failed next), s, w1))
  /\ (dict_mem users username = true ->
      verify_stored password (dict_get users username) = Return false ->
      do_login s username password next w
      = (Return (login_failed next), s, w1))
  /\ (fst (fst (do_login s username password next w))
      = Return (RedirectResponse (next_or_root next) 303)
      <-> dict_mem users username = true
          /\ verify_stored password (dict_get users username) = Return true).
Proof.
  intros Hl. rewrite (do_login_verify _ _ _ _ _ _ _ Hl).
  split; [|split; [|split]].
  - intros _ ->. reflexivity.
  - intros Hm. rewrite (verify_stored_absent _ _ _ Hm). reflexivity.
  - intros _ ->. reflexivity.
  - destruct (verify_stored_returns password (dict_get users username))
      as [b Hb].
    destruct b.
    + pose proof (verify_stored_present _ _ _ Hb) as Hm.
      rewrite Hb. cbn [fst]. tauto.
    + rewrite Hb. cbn [fst]. split.
      * unfold login_failed. intros H. apply Return_inj in H. discriminate.
      * intros [_ H]. discriminate.
Qed.



Lemma str_store_key_valid (d : dict) (k : str) :
  str_store d = true -> dict_mem d k = true -> valid_text k = true.
Proof.
  induction d as [|[k0 v] d IH]; cbn; [discriminate|].
  intros Hd Hm.
  repeat (apply andb_true_iff in Hd; destruct Hd as [Hd ?]).
  apply orb_true_iff in Hm as [Hm|Hm]; [|auto].
  apply str_eqb_eq in Hm. subst. exact Hd.
Qed.

(** The accepted change: a salt is drawn, the entry of the user is replaced
    and the whole mapping is saved. *)
Lemma change_password_success (username current new_password : str)
  (pw : bytes) (w w1 : world) (users : dict) :
  load_users w = (Return (PDict users), w1) ->
  verify_stored current (dict_get users username) = Return true ->
  encode_utf8 new_password = Return pw ->
  change_password (Some username) current new_password new_password w
  = (Return (change_password_page username None
               (Some (lit "Password updated"))),
     save_users
       (PDict (dict_set users username
                 (PStr (bytes_hex (fst (token_bytes 16 w1)) ++ [DOLLAR]
                          ++ bytes_hex (kdf pw (fst (token_bytes 16 w1)))))))
       (snd (token_bytes 16 w1))).
Proof.
  intros Hl Hv Hp. rewrite (change_password_verify _ _ _ _ _ _ _ Hl), Hv.
  rewrite str_eqb_refl. cbn [negb].
  rewrite (hash_password_drawn _ _ _ Hp). reflexivity.
Qed.

Lemma load_users_saved (users : dict) (w : world) :
  str_store users = true ->
  load_users (save_users (PDict users) w)
  = (Return (PDict users), save_users (PDict users) w).
Proof. intros Hs. apply load_users_written; [exact Hs | reflexivity]. Qed.

(** C7, as the code has it. An accepted change replaces the entry of the
    user by the hash of the new password under a salt of 16 bytes newly
    drawn from the random source, and saves the whole mapping; the new
    password verifies against the new hash; any password, the old one
    included, verifies against it, and logs in, exactly when its derived key
    under the new salt is that of the new password. *)
Theorem change_password_installs_fresh_hash
  (username current new_password : str) (w w1 : world) (users : dict) :
  load_users w = (Return (PDict users), w1) ->
  verify_stored current (dict_get users username) = Return true ->
  valid_text new_password = true ->
  let salt := map (entropy w1) (seq (drawn w1) 16) in
  exists pw w2,
    encode_utf8 new_password = Return pw
    /\ let hashed := bytes_hex salt ++ lit "$" ++ bytes_hex (kdf pw salt) in
       change_password (Some username) current new_password new_password w
       = (Return (change_password_page username None
                    (Some (lit "Password updated"))), w2)
       /\ users_file w2
          = Some (json_dumps (PDict (dict_set users username (PStr hashed))))
       /\ dict_get (dict_set users username (PStr hashed)) username
          = PStr hashed
       /\ verify_password new_password hashed = Return true
       /\ (forall q pq,
              encode_utf8 q = Return pq ->
              verify_password q hashed = Return true
              <-> kdf pq salt = kdf pw salt)
       /\ (str_store users = true ->
           forall s q next,
             fst (fst (do_login s username q next w2))
             = Return (RedirectResponse (next_or_root next) 303)
             <-> verify_password q hashed = Return true).
Proof.
  intros Hl Hv Hp salt. destruct (encode_utf8_valid _ Hp) as [pw Hpw].
  exists pw. eexists. split; [exact Hpw|].
  change (lit "$") with [DOLLAR]. cbv zeta.
  rewrite (change_password_success _ _ _ _ _ _ _ Hl Hv Hpw).
  change (fst (token_bytes 16 w1)) with salt.
  split; [reflexivity|]. split; [reflexivity|].
  split; [apply dict_get_set_same|].
  split; [apply verify_password_hash; exact Hpw|].
  split; [intros q pq Hq; apply verify_password_iff; exact Hq|].
  intros Hs s q next.
  assert (Hst : str_store
                  (dict_set users username
                     (PStr (bytes_hex salt ++ [DOLLAR]
                              ++ bytes_hex (kdf pw salt)))) = true).
  { apply str_store_set; [exact Hs | | apply valid_text_stored].
    apply (str_store_key_valid users); [exact Hs|].
    apply (verify_stored_present current). exact Hv. }
  rewrite (do_login_verify _ _ _ _ _ _ _ (load_users_saved _ _ Hst)).
  rewrite dict_get_set_same. cbn [verify_stored].
  destruct (verify_password_returns q
              (bytes_hex salt ++ [DOLLAR] ++ bytes_hex (kdf pw salt)))
    as [b Hb].
  rewrite Hb. destruct b; cbn [fst].
  - tauto.
  - split; intros H; apply Return_inj in H; discriminate.
Qed.

(** C10. An accepted change of password touches the entry of the logged-in
    user only: the mapping that is saved has the keys of the loaded one, in
    the same order, and the same object under every other key; on a store of
    strings the next [load_users] returns that mapping. *)
Theorem change_password_frame
  (username current new_password : str) (w w1 : world) (users : dict) :
  load_users w = (Return (PDict users), w1) ->
  verify_stored current (dict_get users username) = Return true ->
  valid_text new_password = true ->
  exists hashed w2,
    change_password (Some username) current new_password new_password w
    = (Return (change_password_page username None
                 (Some (lit "Password updated"))), w2)
    /\ users_file w2
       = Some (json_dumps (PDict (dict_set users username (PStr hashed))))
    /\ map fst (dict_set users username (PStr hashed)) = map fst users
    /\ (forall other,
           other <> username ->
           dict_get (dict_set users username (PStr hashed)) other
           = dict_get users other)
    /\ (str_store users = true ->
        load_users w2
        = (Return (PDict (dict_set users username (PStr hashed))), w2)).
Proof.
  intros Hl Hv Hp. destruct (encode_utf8_valid _ Hp) as [pw Hpw].
  pose proof (verify_stored_present _ _ _ Hv) as Hm.
  do 2 eexists.
  rewrite (change_password_success _ _ _ _ _ _ _ Hl Hv Hpw).
  split; [reflexivity|]. split; [reflexivity|].
  split; [apply dict_keys_set_present; exact Hm|].
  split; [intros other Hne; apply dict_get_set_other; exact Hne|].
  intros Hs. apply load_users_saved.
  apply str_store_set; [exact Hs | | apply valid_text_stored].
  apply (str_store_key_valid users); assumption.
Qed.


(** * More properties of the hasher *)

Lemma split_on_single_absent (sep : char) (s f : str) :
  split_on sep s = [f] -> forallb (fun c => negb (c =? sep)) s = true.
Proof.
  revert f. induction s as [|c s IH]; cbn; intros f; [reflexivity|].
  destruct (c =? sep).
  - intros H. injection H as _ H. exfalso. exact (split_on_nonempty _ _ H).
  - destruct (split_on sep s) as [|f' [|g fs]] eqn:Hs.
    + exfalso. exact (split_on_nonempty _ _ Hs).
    + intros _. cbn. apply (IH f'). reflexivity.
    + discriminate.
Qed.

Lemma split_on_two (sep : char) (s a b : str) :
  split_on sep s = [a; b] ->
  s = a ++ sep :: b
  /\ forallb (fun c => negb (c =? sep)) a = true
  /\ forallb (fun c => negb (c =? sep)) b = true.
Proof.
  revert a. induction s as [|c s IH]; cbn; intros a; [discriminate|].
  destruct (c =? sep) eqn:Hc.
  - intros H. injection H as <- H. apply N.eqb_eq in Hc. subst c.
    pose proof (split_on_single_absent _ _ _ H) as Hb.
    pose proof (split_on_single _ _ _ H) as ->.
    split; [reflexivity|]. split; [reflexivity | exact Hb].
  - destruct (split_on sep s) as [|f [|g [|h fs]]] eqn:Hs;
      try discriminate.
    intros H. injection H as <- <-.
    destruct (IH f eq_refl) as (-> & Hf & Hg).
    split; [reflexivity|]. cbn. rewrite Hc, Hf, Hg. auto.
Qed.

Lemma compare_digest_true (a b : str) :
  except_Exception (compare_digest a b) false = Return true -> a = b.
Proof.
  intros H. destruct (list_eq_dec N.eq_dec a b) as [Heq|Hne]; [exact Heq|].
  rewrite (compare_digest_differ _ _ Hne) in H.
  apply Return_inj in H. discriminate.
Qed.

Lemma bytes_hex_length (bs : bytes) :
  length (bytes_hex bs) = (2 * length bs)%nat.
Proof.
  induction bs as [|b bs IH]; [reflexivity|].
  unfold bytes_hex in *. cbn [flat_map]. rewrite length_app, IH.
  cbn [byte_hex length]. lia.
Qed.

Lemma count_occ_absent (sep : char) (s : str) :
  forallb (fun c => negb (c =? sep)) s = true ->
  count_occ N.eq_dec s sep = 0%nat.
Proof.
  induction s as [|c s IH]; cbn; [reflexivity|].
  intros H. apply andb_true_iff in H as [Hc Hs].
  apply negb_true_iff, N.eqb_neq in Hc.
  destruct (N.eq_dec c sep); [contradiction | auto].
Qed.

(** X1. [verify_password] answers [True] exactly on a stored string made of
    a salt field without dollar that [bytes.fromhex] accepts, a dollar, and
    the lower-case hexadecimal key derived from the password and that
    salt. *)
Theorem verify_password_true_iff (p stored : str) :
  verify_password p stored = Return true
  <-> exists salt_hex salt pw,
        stored = salt_hex ++ [DOLLAR] ++ bytes_hex (kdf pw salt)
        /\ forallb (fun c => negb (c =? DOLLAR)) salt_hex = true
        /\ bytes_fromhex salt_hex = Return salt
        /\ encode_utf8 p = Return pw.
Proof.
  split.
  - unfold verify_password.
    destruct (split_on DOLLAR stored) as [|salt_hex [|hash_hex [|x fs]]]
      eqn:Hs; try (intros H; apply Return_inj in H; discriminate).
    destruct (bytes_fromhex salt_hex) as [salt|e] eqn:Hf;
      [|intros H; apply Return_inj in H; discriminate].
    rewrite bind_ret.
    destruct (encode_utf8 p) as [pw|e] eqn:Hp;
      [|intros H; apply Return_inj in H; discriminate].
    rewrite bind_ret. cbv zeta. intros H.
    apply compare_digest_true in H.
    destruct (split_on_two _ _ _ _ Hs) as (-> & Hsalt & _).
    exists salt_hex, salt, pw. rewrite H. auto.
  - intros (salt_hex & salt & pw & -> & Hsalt & Hf & Hp).
    unfold verify_password. cbn [app].
    rewrite split_on_first by exact Hsalt.
    rewrite split_on_absent by apply bytes_hex_no_dollar.
    rewrite Hf, bind_ret, Hp, bind_ret. cbv zeta.
    unfold compare_digest. rewrite bytes_hex_ascii, tscmp_refl. reflexivity.
Qed.

(** X2. A password that is no valid text (a lone surrogate) makes
    [hash_password] raise [UnicodeEncodeError], after the salt was drawn
    when none was given, and makes [verify_password] answer [False] on
    every stored string. *)
Theorem invalid_password_text (p : str) (s : bytes) (stored : str)
  (w : world) :
  valid_text p = false ->
  hash_password p (Some s) w = (Raise UnicodeEncodeError, w)
  /\ hash_password p None w
     = (Raise UnicodeEncodeError,
        mkWorld (users_file w) (entropy w) (drawn w + 16) (stdout w))
  /\ verify_password p stored = Return false.
Proof.
  intros Hp. pose proof (encode_utf8_invalid _ Hp) as He.
  split; [|split].
  - rewrite hash_password_salted, He. reflexivity.
  - rewrite hash_password_fresh, hash_password_salted, He. reflexivity.
  - unfold verify_password.
    destruct (split_on DOLLAR stored) as [|salt_hex [|hash_hex [|x fs]]];
      try reflexivity.
    destruct (bytes_fromhex salt_hex) as [salt|e]; [|reflexivity].
    rewrite bind_ret, He. reflexivity.
Qed.

(** X3. The string [hash_password] returns has two hexadecimal characters
    for every byte of the salt, one dollar and 64 hexadecimal characters: 97
    characters with a drawn salt.  It contains no other dollar. *)
Theorem hash_password_format (p : str) (pw : bytes) (s : bytes) (w : world) :
  encode_utf8 p = Return pw ->
  exists h h',
    fst (hash_password p (Some s) w) = Return h
    /\ length h = (2 * length s + 65)%nat
    /\ forallb (fun c => hex_char c || (c =? DOLLAR)) h = true
    /\ count_occ N.eq_dec h DOLLAR = 1%nat
    /\ fst (hash_password p None w) = Return h'
    /\ length h' = 97%nat.
Proof.
  clear float_repr float_bool.
  intros Hp. do 2 eexists.
  rewrite (hash_password_drawn _ _ _ Hp).
  rewrite hash_password_salted, Hp, bind_ret. cbn [fst].
  split; [reflexivity|].
  split.
  { rewrite !length_app, !bytes_hex_length, kdf_length. cbn [length]. lia. }
  split.
  { assert (Hhex : forall bs,
               forallb (fun c => hex_char c || (c =? DOLLAR)) (bytes_hex bs)
               = true).
    { intros bs. apply forallb_weaken with (P := hex_char);
        [intros x ->; reflexivity | apply bytes_hex_chars]. }
    rewrite !forallb_app, !Hhex. reflexivity. }
  split.
  { assert (Hcnt : forall bs,
               count_occ N.eq_dec (bytes_hex bs) DOLLAR = 0%nat)
      by (intros bs; apply count_occ_absent, bytes_hex_no_dollar).
    rewrite !count_occ_app, !Hcnt. reflexivity. }
  split; [reflexivity|].
  rewrite !length_app, !bytes_hex_length, kdf_length, token_bytes_length.
  reflexivity.
Qed.

(** X4. [verify_password] answers [False] whenever the hash field of the
    stored string has not exactly 64 characters. *)
Theorem verify_rejects_short_hash (p stored salt_hex hash_hex : str) :
  split_on DOLLAR stored = [salt_hex; hash_hex] ->
  length hash_hex <> 64%nat ->
  verify_password p stored = Return false.
Proof.
  intros Hs Hlen. destruct (verify_password_returns p stored) as [b Hb].
  destruct b; [|exact Hb]. exfalso.
  unfold verify_password in Hb. rewrite Hs in Hb.
  destruct (bytes_fromhex salt_hex) as [salt|e];
    [|apply Return_inj in Hb; discriminate].
  rewrite bind_ret in Hb.
  destruct (encode_utf8 p) as [pw|e];
    [|apply Return_inj in Hb; discriminate].
  rewrite bind_ret in Hb. cbv zeta in Hb.
  apply compare_digest_true in Hb. apply Hlen.
  rewrite <- Hb, bytes_hex_length, kdf_length. reflexivity.
Qed.


(** * More properties of the users file and of the routes *)

(** X5. [ensure_users_file] never raises, leaves a users file behind, and a
    second call changes nothing. *)
Theorem ensure_users_file_idempotent (w : world) :
  fst (ensure_users_file w) = Return tt
  /\ users_file (snd (ensure_users_file w)) <> None
  /\ ensure_users_file (snd (ensure_users_file w))
     = (Return tt, snd (ensure_users_file w)).
Proof.
  assert (H : fst (ensure_users_file w) = Return tt
              /\ users_file (snd (ensure_users_file w)) <> None).
  { destruct (users_file w) as [content|] eqn:Hf.
    - rewrite ensure_users_file_present by (rewrite Hf; discriminate).
      cbn [fst snd]. rewrite Hf. split; [reflexivity | discriminate].
    - destruct default_password_bytes as [pw Hpw].
      rewrite (ensure_users_file_absent w pw Hf Hpw).
      split; [reflexivity | discriminate]. }
  destruct H as [H1 H2]. split; [exact H1|]. split; [exact H2|].
  apply ensure_users_file_present. exact H2.
Qed.

(** X6. Creating the users file draws exactly 16 bytes from the random
    source and prints one line, which shows the default credentials. *)
Theorem ensure_users_file_effects (w : world) :
  users_file w = None ->
  drawn (snd (ensure_users_file w)) = (drawn w + 16)%nat
  /\ entropy (snd (ensure_users_file w)) = entropy w
  /\ stdout (snd (ensure_users_file w))
     = stdout w
         ++ [lit "Created users.json with default credentials: admin / secret123"].
Proof.
  intros Hf. destruct default_password_bytes as [pw Hpw].
  rewrite (ensure_users_file_absent w pw Hf Hpw). repeat split.
Qed.

(** X7. [load_users] after [save_users] returns the mapping that was saved,
    for every store of strings; a later [save_users] overwrites the file
    whole. *)
Theorem save_then_load (users other : dict) (w : world) :
  str_store users = true ->
  load_users (save_users (PDict users) w)
  = (Return (PDict users), save_users (PDict users) w)
  /\ save_users (PDict users) (save_users (PDict other) w)
     = save_users (PDict users) w.
Proof.
  intros Hs. split; [apply load_users_saved; exact Hs | reflexivity].
Qed.

Definition is_dict (v : pyval) : bool :=
  match v with
  | PDict _ => true
  | _ => false
  end.

(** X8. [load_users] does not check what kind of JSON document the file
    holds.  When it is not an object, [do_login] and [change_password] raise
    [AttributeError] on [users.get] and write nothing. *)
Theorem store_not_a_dict (s : session) (username a b c : str)
  (next : option str) (w : world) (content : str) (v : pyval) :
  users_file w = Some content ->
  json_loads content = Return v ->
  is_dict v = false ->
  load_users w = (Return v, w)
  /\ do_login s username a next w = (Raise AttributeError, s, w)
  /\ change_password (Some username) a b c w = (Raise AttributeError, w).
Proof.
  intros Hf Hj Hv.
  assert (Hl : load_users w = (Return v, w))
    by (rewrite (load_users_present _ _ Hf), Hj; reflexivity).
  split; [exact Hl|]. unfold do_login, change_password, get_current_user.
  rewrite Hl. cbn [fst snd]. destruct v; try discriminate; split; reflexivity.
Qed.

Definition is_str (v : pyval) : bool :=
  match v with
  | PStr _ => true
  | _ => false
  end.

(** X9. An entry whose value is not a string (a number, [null], a list...)
    never logs in and never lets the password be changed: both routes give
    their ordinary refusal, without raising. *)
Theorem entry_not_a_string (s : session) (username a b c : str)
  (next : option str) (w w1 : world) (users : dict) :
  load_users w = (Return (PDict users), w1) ->
  is_str (dict_get users username) = false ->
  do_login s username a next w = (Return (login_failed next), s, w1)
  /\ change_password (Some username) a b c w
     = (Return (change_password_page username
                  (Some (lit "Current password incorrect")) None), w1).
Proof.
  intros Hl Hv.
  rewrite (do_login_verify _ _ _ _ _ _ _ Hl).
  rewrite (change_password_verify _ _ _ _ _ _ _ Hl).
  destruct (dict_get users username); try discriminate; split; reflexivity.
Qed.

(** X10. [do_login] writes nothing of its own: the world it leaves is the
    one [load_users] leaves, the initial one when the users file exists.  The
    session is bound to the user name on success, whoever was logged in
    before, and kept otherwise. *)
Theorem do_login_effects (s : session) (username password : str)
  (next : option str) (w : world) :
  snd (do_login s username password next w) = snd (load_users w)
  /\ (users_file w <> None -> snd (do_login s username password next w) = w)
  /\ (snd (fst (do_login s username password next w)) = Some username
      /\ fst (fst (do_login s username password next w))
         = Return (RedirectResponse (next_or_root next) 303)
      \/ snd (fst (do_login s username password next w)) = s
         /\ fst (fst (do_login s username password next w))
            <> Return (RedirectResponse (next_or_root next) 303)).
Proof.
  assert (Hw : snd (do_login s username password next w)
               = snd (load_users w)).
  { unfold do_login. destruct (fst (load_users w)) as [v|e]; [|reflexivity].
    destruct v; try reflexivity. rewrite guard_is_verify.
    destruct (verify_stored password (dict_get d username)) as [[|]|e];
      reflexivity. }
  split; [exact Hw|]. split.
  - intros Hf. rewrite Hw.
    destruct (load_users w) as [r w1] eqn:Hl.
    exact (load_users_keeps_present _ _ _ Hl Hf).
  - unfold do_login. destruct (fst (load_users w)) as [v|e];
      [|right; split; [reflexivity | discriminate]].
    destruct v; try (right; split; [reflexivity | discriminate]).
    rewrite guard_is_verify.
    destruct (verify_stored password (dict_get d username)) as [[|]|e].
    + left. split; reflexivity.
    + right. split; [reflexivity|]. unfold login_failed. discriminate.
    + right. split; [reflexivity | discriminate].
Qed.

(** The first [load_users] of an installation: the file is created and the
    mapping with the default account is returned. *)
Lemma fresh_install_load (w : world) :
  users_file w = None ->
  exists hashed,
    load_users w
    = (Return (PDict [(DEFAULT_ADMIN_username, PStr hashed)]),
       snd (ensure_users_file w))
    /\ verify_password DEFAULT_ADMIN_password hashed = Return true.
Proof.
  intros Hf. destruct default_password_bytes as [pw Hpw].
  pose proof (ensure_users_file_absent w pw Hf Hpw) as He. cbv zeta in He.
  exists (bytes_hex (fst (token_bytes 16 w)) ++ [DOLLAR]
            ++ bytes_hex (kdf pw (fst (token_bytes 16 w)))).
  split; [|apply verify_password_hash; exact Hpw].
  unfold load_users. rewrite He.
  cbn [fst snd print write_users_file users_file].
  rewrite json_loads_dumps_store; [reflexivity|].
  cbn [str_store dict_mem negb andb]. rewrite valid_text_stored.
  reflexivity.
Qed.

(** X11. On a fresh installation, with no users file, logging in with the
    default credentials creates the file and succeeds. *)
Theorem default_credentials_log_in (s : session) (next : option str)
  (w : world) :
  users_file w = None ->
  do_login s DEFAULT_ADMIN_username DEFAULT_ADMIN_password next w
  = (Return (RedirectResponse (next_or_root next) 303),
     Some DEFAULT_ADMIN_username, snd (ensure_users_file w)).
Proof.
  intros Hf. destruct (fresh_install_load w Hf) as (hashed & Hl & Hv).
  rewrite (do_login_verify _ _ _ _ _ _ _ Hl).
  change (dict_get [(DEFAULT_ADMIN_username, PStr hashed)]
            DEFAULT_ADMIN_username) with (PStr hashed).
  cbn [verify_stored]. rewrite Hv. reflexivity.
Qed.


(** X13. An accepted change of password draws exactly 16 bytes from the
    random source and prints nothing. *)
Theorem change_password_draws_one_salt
  (username current new_password : str) (w w1 : world) (users : dict) :
  load_users w = (Return (PDict users), w1) ->
  verify_stored current (dict_get users username) = Return true ->
  valid_text new_password = true ->
  let w2 :=
    snd (change_password (Some username) current new_password new_password w)
  in
  drawn w2 = (drawn w1 + 16)%nat
  /\ entropy w2 = entropy w1
  /\ stdout w2 = stdout w1.
Proof.
  intros Hl Hv Hp. destruct (encode_utf8_valid _ Hp) as [pw Hpw].
  rewrite (change_password_success _ _ _ _ _ _ _ Hl Hv Hpw).
  repeat split.
Qed.

(** X14. When the new password is no valid text, [change_password] raises
    [UnicodeEncodeError] after the salt was drawn: the users file keeps its
    content. *)
Theorem change_password_invalid_text
  (username current new_password : str) (w w1 : world) (users : dict) :
  load_users w = (Return (PDict users), w1) ->
  verify_stored current (dict_get users username) = Return true ->
  valid_text new_password = false ->
  exists w2,
    change_password (Some username) current new_password new_password w
    = (Raise UnicodeEncodeError, w2)
    /\ users_file w2 = users_file w1
    /\ drawn w2 = (drawn w1 + 16)%nat.
Proof.
  intros Hl Hv Hp. pose proof (encode_utf8_invalid _ Hp) as He.
  eexists. rewrite (change_password_verify _ _ _ _ _ _ _ Hl), Hv.
  rewrite str_eqb_refl. cbn [negb].
  rewrite hash_password_fresh, hash_password_salted, He. cbn [fst snd bind].
  repeat split.
Qed.

(** X15. A session whose user is no longer in the store cannot set a
    password: the change is refused and no entry is created. *)
Theorem change_password_unknown_user
  (username current new_password confirm : str) (w w1 : world)
  (users : dict) :
  load_users w = (Return (PDict users), w1) ->
  dict_mem users username = false ->
  change_password (Some username) current new_password confirm w
  = (Return (change_password_page username
               (Some (lit "Current password incorrect")) None), w1).
Proof.
  intros Hl Hm. rewrite (change_password_verify _ _ _ _ _ _ _ Hl).
  rewrite (verify_stored_absent _ _ _ Hm). reflexivity.
Qed.


(** * Properties of the other routes *)

(** Without a session every protected route answers with a redirect to the
    login page that names the route, and touches neither the users file nor
    the Excel file. *)
Lemma protected_routes_require_session `{Pandas}
  (a b c d : str) (phone : option str) (idx : Z) (w : world) (x : excel) :
  add_page None = RedirectResponse (lit "/login?next=/add") 303
  /\ add_record None a b c d phone a x
     = (Return (RedirectResponse (lit "/login?next=/add") 303), x)
  /\ update_page None idx x
     = (Return (RedirectResponse (lit "/login?next=/update/" ++ int_repr idx)
                  303), x)
  /\ update_record None idx a b c d phone a x
     = (Return (RedirectResponse (lit "/login?next=/update/" ++ int_repr idx)
                  303), x)
  /\ download_excel None
     = Page (RedirectResponse (lit "/login?next=/download") 303)
  /\ change_password_form None
     = RedirectResponse (lit "/login?next=/change-password") 303
  /\ change_password None a b c w
     = (Return (RedirectResponse (lit "/login?next=/change-password") 303),
        w).
Proof. repeat split. Qed.

(** X16. The session through its life: after a successful [do_login] the
    protected pages are served to the user who logged in; after [logout],
    whoever was logged in, they redirect to the login page again. *)
Theorem session_lifecycle (s : session) (username password : str)
  (next : option str) (w : world) :
  (fst (fst (do_login s username password next w))
   = Return (RedirectResponse (next_or_root next) 303) ->
   let s' := snd (fst (do_login s username password next w)) in
   get_current_user s' = Some username
   /\ add_page s' = TemplateResponse (lit "add.html")
                      [("user"%string, PStr username)]
   /\ download_excel s' = FileResponse EXCEL_FILE (lit "connections.xlsx")
   /\ change_password_form s' = change_password_page username None None)
  /\ fst (logout s) = RedirectResponse (lit "/") 303
  /\ get_current_user (snd (logout s)) = None
  /\ add_page (snd (logout s)) = RedirectResponse (lit "/login?next=/add") 303
  /\ download_excel (snd (logout s))
     = Page (RedirectResponse (lit "/login?next=/download") 303).
Proof.
  split; [|repeat split].
  intros Hok s'.
  assert (Hs : s' = Some username).
  { subst s'. revert Hok. unfold do_login.
    destruct (fst (load_users w)) as [v|e]; [|discriminate].
    destruct v; try discriminate. rewrite guard_is_verify.
    destruct (verify_stored password (dict_get d username)) as [[|]|e];
      [reflexivity | | discriminate].
    unfold login_failed. discriminate. }
  rewrite Hs. repeat split.
Qed.

(** X17. [require_login] lets a request through exactly when the session
    holds a non-empty user name, and otherwise redirects to the login page
    with the path of the request; the routes themselves test [is None] and
    serve an empty user name. *)
Theorem require_login_spec (s : session) (path : str) :
  (require_login s path = None <-> exists c user, s = Some (c :: user))
  /\ (require_login s path <> None ->
      require_login s path
      = Some (RedirectResponse (lit "/login?next=" ++ path) 303))
  /\ require_login (Some []) path <> None
  /\ add_page (Some [])
     = TemplateResponse (lit "add.html") [("user"%string, PStr [])].
Proof.
  unfold require_login, get_current_user.
  split; [|split; [|split; [discriminate | reflexivity]]].
  - destruct s as [[|c user]|]; split; try discriminate; eauto.
    + intros (c & user & H). discriminate.
    + intros (c & user & H). discriminate.
  - destruct s as [[|c user]|]; try reflexivity. intros H. contradiction.
Qed.

(** X18. [add_record] for a logged-in user: an email without an at sign or
    without a dot is refused with "Invalid email" before the Excel file is
    read, so the file is neither changed nor created; any other email is
    accepted, the row is appended to the frame that was read and the result
    is saved. *)
Theorem add_record_email_check `{Pandas}
  (user name company connection_link email : str) (phone : option str)
  (role : str) (x : excel) :
  (str_contains 64 email && str_contains 46 email = false ->
   add_record (Some user) name company connection_link email phone role x
   = (Return (TemplateResponse (lit "add.html")
                [("user"%string, PStr user);
                 ("error"%string, PStr (lit "Invalid email"))]), x))
  /\ (str_contains 64 email && str_contains 46 email = true ->
      forall df,
        fst (load_data x) = Return df ->
        add_record (Some user) name company connection_link email phone role x
        = (Return (RedirectResponse (lit "/") 303),
           Some (to_excel
                   (frame_concat_row df
                      (new_row name company connection_link email phone
                         role))))).
Proof.
  unfold add_record, get_current_user. split.
  - intros Hc. apply andb_false_iff in Hc.
    destruct Hc as [-> | ->]; [reflexivity|].
    rewrite orb_true_r. reflexivity.
  - intros Hc df Hl. apply andb_true_iff in Hc as [-> ->]. cbn [negb orb].
    rewrite Hl. reflexivity.
Qed.

(** X19. The two update routes agree on the rows they accept.  For an index
    below zero or not below the number of rows, both redirect to the index
    page and save nothing; for an index in range, [update_page] shows the
    form for that row and [update_record] saves the frame in which the row
    was assigned, or raises what the assignment raises, saving nothing. *)
Theorem update_index_bounds `{Pandas}
  (user name company connection_link email : str) (phone : option str)
  (role : str) (idx : Z) (x : excel) (df : frame) :
  fst (load_data x) = Return df ->
  let cells :=
    [PStr name; PStr company; PStr connection_link; PStr email;
     opt_str phone; PStr role] in
  ((idx < 0 \/ Z.of_nat (frame_len df) <= idx)%Z ->
   update_page (Some user) idx x
   = (Return (RedirectResponse (lit "/") 303), snd (load_data x))
   /\ update_record (Some user) idx name company connection_link email phone
        role x
      = (Return (RedirectResponse (lit "/") 303), snd (load_data x)))
  /\ ((0 <= idx < Z.of_nat (frame_len df))%Z ->
      update_page (Some user) idx x
      = (Return (TemplateResponse (lit "update.html")
                   [("record"%string, frame_row_dict df idx);
                    ("idx"%string, PInt idx);
                    ("user"%string, PStr user)]), snd (load_data x))
      /\ (forall df',
             frame_set_row df idx cells = Return df' ->
             update_record (Some user) idx name company connection_link email
               phone role x
             = (Return (RedirectResponse (lit "/") 303), Some (to_excel df')))
      /\ (forall e,
             frame_set_row df idx cells = Raise e ->
             update_record (Some user) idx name company connection_link email
               phone role x
             = (Raise e, snd (load_data x)))).
Proof.
  intros Hl cells. unfold update_page, update_record, get_current_user.
  rewrite Hl. split.
  - intros Hout.
    replace ((idx <? 0)%Z || (Z.of_nat (frame_len df) <=? idx)%Z) with true
      by (symmetry; apply orb_true_iff; destruct Hout;
          [left; apply Z.ltb_lt | right; apply Z.leb_le]; assumption).
    replace ((0 <=? idx)%Z && (idx <? Z.of_nat (frame_len df))%Z) with false
      by (symmetry; apply andb_false_iff; destruct Hout;
          [left; apply Z.leb_gt | right; apply Z.ltb_ge]; assumption).
    split; reflexivity.
  - intros [Hlo Hhi].
    replace ((idx <? 0)%Z || (Z.of_nat (frame_len df) <=? idx)%Z) with false
      by (symmetry; apply orb_false_iff; split;
          [apply Z.ltb_ge | apply Z.leb_gt]; assumption).
    replace ((0 <=? idx)%Z && (idx <? Z.of_nat (frame_len df))%Z) with true
      by (symmetry; apply andb_true_iff; split;
          [apply Z.leb_le | apply Z.ltb_lt]; assumption).
    split; [reflexivity|]. split.
    + intros df' Hset. subst cells. rewrite Hset. reflexivity.
    + intros e Hset. subst cells. rewrite Hset. reflexivity.
Qed.

(** X20. [update_record] does not check the email: an email that
    [add_record] refuses is stored by an update of a row in range. *)
Theorem update_record_skips_email_check `{Pandas}
  (user name company connection_link email : str) (phone : option str)
  (role : str) (idx : Z) (x : excel) (df df' : frame) :
  str_contains 64 email && str_contains 46 email = false ->
  fst (load_data x) = Return df ->
  (0 <= idx < Z.of_nat (frame_len df))%Z ->
  frame_set_row df idx
    [PStr name; PStr company; PStr connection_link; PStr email;
     opt_str phone; PStr role] = Return df' ->
  snd (add_record (Some user) name company connection_link email phone role x)
  = x
  /\ update_record (Some user) idx name company connection_link email phone
       role x
     = (Return (RedirectResponse (lit "/") 303), Some (to_excel df')).
Proof.
  intros Hc Hl [Hlo Hhi] Hset. split.
  - unfold add_record, get_current_user. apply andb_false_iff in Hc.
    destruct Hc as [-> | ->]; [reflexivity|].
    rewrite orb_true_r. reflexivity.
  - unfold update_record, get_current_user. rewrite Hl.
    replace ((0 <=? idx)%Z && (idx <? Z.of_nat (frame_len df))%Z) with true
      by (symmetry; apply andb_true_iff; split;
          [apply Z.leb_le | apply Z.ltb_lt]; assumption).
    rewrite Hset. reflexivity.
Qed.

(** X21. [load_data] always leaves an Excel file behind, keeps the content
    of an existing one, and reads the same frame when called again. *)
Theorem load_data_idempotent `{Pandas} (x : excel) :
  snd (load_data x) <> None
  /\ (x <> None -> snd (load_data x) = x)
  /\ load_data (snd (load_data x)) = load_data x.
Proof.
  unfold load_data. cbn [snd]. split; [discriminate|]. split.
  - destruct x; [reflexivity | intros Hx; contradiction].
  - reflexivity.
Qed.


(** * The text of the users file *)

Definition printable (c : char) : bool := (32 <=? c) && (c <=? 126).

Lemma hexdigit_printable (x : N) : x < 16 -> printable (hexdigit x) = true.
Proof.
  intros Hx. unfold printable, hexdigit.
  destruct (x <? 10); apply andb_true_iff; split; apply N.leb_le; lia.
Qed.

Lemma hex4_chars_printable (n : N) : forallb printable (hex4_chars n) = true.
Proof.
  unfold hex4_chars. cbn [forallb].
  rewrite !hexdigit_printable by (apply N.mod_lt; discriminate).
  reflexivity.
Qed.

Lemma escape_char_printable (c : char) :
  forallb printable (escape_char c) = true.
Proof.
  unfold escape_char.
  repeat match goal with
         | |- context [if ?b then _ else _] =>
             lazymatch b with
             | (_ <=? _) && (_ <=? _) => fail
             | _ <? _ => fail
             | _ => destruct b; [reflexivity|]
             end
         end.
  destruct ((32 <=? c) && (c <=? 126)) eqn:E.
  - cbn [forallb]. unfold printable. rewrite E. reflexivity.
  - destruct (c <? 65536).
    + cbn [forallb]. rewrite hex4_chars_printable. reflexivity.
    + rewrite forallb_app. cbn [forallb].
      rewrite !hex4_chars_printable. reflexivity.
Qed.

Lemma encode_basestring_ascii_printable (s : str) :
  forallb printable (encode_basestring_ascii s) = true.
Proof.
  unfold encode_basestring_ascii. cbn [forallb]. rewrite forallb_app.
  cbn [forallb]. rewrite andb_true_r. cbn [printable].
  induction s as [|c s IH]; [reflexivity|].
  cbn [flat_map]. rewrite forallb_app, escape_char_printable. exact IH.
Qed.

(** X23. [save_users] on a mapping whose values are strings writes printable
    ASCII only, whatever characters the user names and the values hold: the
    users file is one line of ASCII text. *)
Theorem users_file_is_ascii (users : dict) (w : world) :
  forallb (fun kv => is_str (snd kv)) users = true ->
  exists content,
    users_file (save_users (PDict users) w) = Some content
    /\ forallb printable content = true.
Proof.
  intros Hs. eexists. split; [reflexivity|].
  rewrite json_dumps_dict. cbn [forallb].
  change (printable 123) with true. cbn [andb].
  induction users as [|[k v] users IH]; [reflexivity|].
  cbn [forallb snd] in Hs. apply andb_true_iff in Hs as [Hv Hs].
  destruct v as [| | | |x| |]; try discriminate.
  rewrite members_text_cons, !forallb_app. cbn [json_dumps].
  rewrite !encode_basestring_ascii_printable.
  destruct users as [|p users]; [reflexivity|].
  rewrite forallb_app, (IH Hs). reflexivity.
Qed.

(** X22. The salt can be read back from what [hash_password] returns: the
    field before the dollar is what [bytes.fromhex] turns into the salt
    that was used, so [verify_password] derives the key under that very
    salt. *)
Theorem stored_salt_round_trip (p : str) (pw s : bytes) (w : world) :
  encode_utf8 p = Return pw ->
  exists h salt_hex hash_hex,
    fst (hash_password p (Some s) w) = Return h
    /\ split_on DOLLAR h = [salt_hex; hash_hex]
    /\ bytes_fromhex salt_hex = Return s
    /\ hash_hex = bytes_hex (kdf pw s).
Proof.
  intros Hp. eexists. exists (bytes_hex s), (bytes_hex (kdf pw s)).
  rewrite hash_password_salted, Hp, bind_ret. cbn [fst].
  split; [reflexivity|]. split; [apply split_stored|].
  split; [apply bytes_fromhex_hex | reflexivity].
Qed.

End App.

(** * Test vectors of the library functions *)

Definition ascii_bytes (s : string) : bytes := map byte_of_N (lit s).

Example sha256_abc :
  bytes_hex (SHA256.sha256 (ascii_bytes "abc"))
  = lit "ba7816bf8f01cfea414140de5dae2223b00361a396177a9cb410ff61f20015ad".
Proof. vm_compute. reflexivity. Qed.

(** RFC 4231, test case 2. *)
Example hmac_sha256_rfc4231 :
  bytes_hex (hmac_sha256 (ascii_bytes "Jefe")
               (ascii_bytes "what do ya want for nothing?"))
  = lit "5bdcc146bf60754e6a042426089575c75a003f089d2739839dec58b964ec3843".
Proof. vm_compute. reflexivity. Qed.

Example pbkdf2_two_iterations :
  bytes_hex (pbkdf2_hmac_sha256 (ascii_bytes "password") (ascii_bytes "salt")
               2 32)
  = lit "ae4d0c95af6b46d32d0adff928f06dd02a303f8ef3c251dfd6e2d85a95474c43".
Proof. vm_compute. reflexivity. Qed.

(** * A first run of the application, for the examples *)

(** Floats do not occur in the examples: a float prints as its literal. *)
Definition sample_float_repr (literal : str) : str := literal.
Definition sample_float_bool (literal : str) : bool := true.

(** A random source that delivers the bytes 0, 1, 2, ... *)
Definition tape (n : nat) : byte := byte_of_N (N.of_nat n).

Definition empty_world : world := mkWorld None tape 0 [].

Definition first_run : world :=
  snd (ensure_users_file sample_float_repr empty_world).

Definition default_password_utf8 : bytes :=
  Eval vm_compute in
    match encode_utf8 DEFAULT_ADMIN_password with
    | Return b => b
    | Raise _ => []
    end.

Definition first_salt : bytes := Eval vm_compute in map tape (seq 0 16).
Definition second_salt : bytes := Eval vm_compute in map tape (seq 16 16).

Definition first_hash : str :=
  bytes_hex first_salt ++ [DOLLAR]
    ++ bytes_hex (kdf default_password_utf8 first_salt).

Definition first_store : dict := [(DEFAULT_ADMIN_username, PStr first_hash)].

(** A world whose users file holds the given store. *)
Definition world_of_store (d : dict) : world :=
  mkWorld (Some (json_dumps sample_float_repr (PDict d))) tape 0 [].

(** A store whose only entry is no stored hash at all. *)
Definition broken_store : dict :=
  [(DEFAULT_ADMIN_username, PStr (lit "nohash"))].

Lemma first_run_load :
  load_users sample_float_repr first_run = (Return (PDict first_store), first_run).
Proof.
  apply load_users_written; [|reflexivity].
  unfold first_store. cbn [str_store dict_mem negb andb].
  unfold first_hash. rewrite valid_text_stored. reflexivity.
Qed.

Lemma first_hash_verifies :
  verify_stored DEFAULT_ADMIN_password
    (dict_get first_store DEFAULT_ADMIN_username) = Return true.
Proof.
  change (dict_get first_store DEFAULT_ADMIN_username) with (PStr first_hash).
  cbn [verify_stored]. apply verify_password_hash. reflexivity.
Qed.

Lemma broken_store_load :
  load_users sample_float_repr (world_of_store broken_store)
  = (Return (PDict broken_store), world_of_store broken_store).
Proof. apply load_users_written; reflexivity. Qed.

(** The hash of the password [b] under the salt of the second draw, and a
    store with a second account. *)
Definition bob_hash : str :=
  bytes_hex second_salt ++ [DOLLAR] ++ bytes_hex (kdf [x62] second_salt).

Definition two_user_store : dict :=
  [(DEFAULT_ADMIN_username, PStr first_hash); (lit "bob", PStr bob_hash)].

Lemma two_user_store_is_str_store : str_store two_user_store = true.
Proof.
  unfold two_user_store. cbn [str_store dict_mem negb andb].
  unfold first_hash, bob_hash. rewrite !valid_text_stored. reflexivity.
Qed.

Lemma two_user_store_load :
  load_users sample_float_repr (world_of_store two_user_store)
  = (Return (PDict two_user_store), world_of_store two_user_store).
Proof.
  apply load_users_written; [exact two_user_store_is_str_store | reflexivity].
Qed.

Lemma two_user_store_verifies :
  verify_stored DEFAULT_ADMIN_password
    (dict_get two_user_store DEFAULT_ADMIN_username) = Return true.
Proof.
  change (dict_get two_user_store DEFAULT_ADMIN_username)
    with (PStr first_hash).
  cbn [verify_stored]. apply verify_password_hash. reflexivity.
Qed.

(** A random source that delivers the zero byte for ever, and the first run
    of the application with it. *)
Definition constant_tape (n : nat) : byte := x00.

Definition constant_world : world := mkWorld None constant_tape 0 [].

Definition zero_salt : bytes := repeat x00 16.

Definition constant_first_run : world :=
  snd (ensure_users_file sample_float_repr constant_world).

Definition constant_hash : str :=
  bytes_hex zero_salt ++ [DOLLAR]
    ++ bytes_hex (kdf default_password_utf8 zero_salt).

Definition constant_store : dict :=
  [(DEFAULT_ADMIN_username, PStr constant_hash)].

Lemma constant_first_run_load :
  load_users sample_float_repr constant_first_run
  = (Return (PDict constant_store), constant_first_run).
Proof.
  apply load_users_written; [|reflexivity].
  unfold constant_store. cbn [str_store dict_mem negb andb].
  unfold constant_hash. rewrite valid_text_stored. reflexivity.
Qed.

Lemma constant_hash_verifies :
  verify_stored DEFAULT_ADMIN_password
    (dict_get constant_store DEFAULT_ADMIN_username) = Return true.
Proof.
  change (dict_get constant_store DEFAULT_ADMIN_username)
    with (PStr constant_hash).
  cbn [verify_stored]. apply verify_password_hash. reflexivity.
Qed.

(** A password made of one lone surrogate. *)
Definition lone_surrogate : str := [0xD800].

(** The default password followed by the character U+0000. *)
Definition nul_padded_password : str := DEFAULT_ADMIN_password ++ [0].

(** * Instances of the theorems *)

Lemma hash_verify_roundtrip_witness :
  valid_text DEFAULT_ADMIN_password = true
  /\ (exists h,
         hash_password DEFAULT_ADMIN_password (Some first_salt) empty_world
         = (Return h, empty_world)
         /\ verify_password DEFAULT_ADMIN_password h = Return true)
  /\ (exists h1 h2,
         fst (hash_password DEFAULT_ADMIN_password None empty_world)
         = Return h1
         /\ fst (hash_password DEFAULT_ADMIN_password None
                   (snd (hash_password DEFAULT_ADMIN_password None
                           empty_world)))
            = Return h2
         /\ hd [] (split_on DOLLAR h1) = bytes_hex first_salt
         /\ hd [] (split_on DOLLAR h2) = bytes_hex second_salt
         /\ verify_password DEFAULT_ADMIN_password h1 = Return true
         /\ verify_password DEFAULT_ADMIN_password h2 = Return true
         /\ h1 <> h2).
Proof.
  destruct (hash_verify_roundtrip DEFAULT_ADMIN_password first_salt
              empty_world eq_refl) as [Hgiven Hdrawn].
  split; [reflexivity|]. split; [exact Hgiven|].
  destruct Hdrawn as (h1 & h2 & H1 & H2 & Hs1 & Hs2 & Hv1 & Hv2 & Hiff).
  exists h1, h2. split; [exact H1|]. split; [exact H2|].
  split; [exact Hs1|]. split; [exact Hs2|].
  split; [exact Hv1|]. split; [exact Hv2|].
  intros Heq. apply Hiff in Heq. discriminate Heq.
Defined.

Lemma hash_construction_witness :
  valid_text DEFAULT_ADMIN_password = true
  /\ exists pw,
       encode_utf8 DEFAULT_ADMIN_password = Return pw
       /\ length (pbkdf2_hmac_sha256 pw first_salt ITERATIONS DIGEST_SIZE)
          = 32%nat.
Proof.
  split; [reflexivity|].
  destruct (hash_construction DEFAULT_ADMIN_password empty_world eq_refl)
    as (pw & Hpw & _ & Hsalted & _).
  exists pw. split; [exact Hpw|]. exact (proj2 (Hsalted first_salt)).
Defined.

Lemma verify_never_raises_witness :
  malformed (lit "no-dollar-here") = true
  /\ verify_password DEFAULT_ADMIN_password (lit "no-dollar-here")
     = Return false.
Proof.
  split; [reflexivity|].
  destruct (proj1 (verify_never_raises DEFAULT_ADMIN_password
                     (lit "no-dollar-here"))) as (b & Hb & Hm).
  rewrite Hb, (Hm eq_refl). reflexivity.
Defined.



Lemma bootstrap_witness :
  users_file empty_world = None
  /\ (exists hashed,
         users_file first_run
         = Some (json_dumps sample_float_repr
                   (PDict [(DEFAULT_ADMIN_username, PStr hashed)]))
         /\ verify_password DEFAULT_ADMIN_password hashed = Return true)
  /\ users_file first_run <> None
  /\ ensure_users_file sample_float_repr first_run = (Return tt, first_run).
Proof.
  destruct (bootstrap sample_float_repr empty_world) as [Habsent _].
  destruct (bootstrap sample_float_repr first_run) as [_ Hpresent].
  assert (Hfile : users_file first_run <> None)
    by (intros H; discriminate H).
  split; [reflexivity|]. split.
  - destruct (Habsent eq_refl) as (hashed & _ & _ & Hf & _ & Hv).
    exists hashed. split; [exact Hf | exact Hv].
  - split; [exact Hfile | exact (Hpresent Hfile)].
Defined.

Lemma change_password_rejected_witness :
  load_users sample_float_repr (world_of_store broken_store)
  = (Return (PDict broken_store), world_of_store broken_store)
  /\ verify_stored (lit "guess")
       (dict_get broken_store DEFAULT_ADMIN_username) = Return false
  /\ change_password sample_float_repr sample_float_bool
       (Some DEFAULT_ADMIN_username) (lit "guess") (lit "a") (lit "a")
       (world_of_store broken_store)
     = (Return (change_password_page DEFAULT_ADMIN_username
                  (Some (lit "Current password incorrect")) None),
        world_of_store broken_store)
  /\ load_users sample_float_repr first_run
     = (Return (PDict first_store), first_run)
  /\ verify_stored DEFAULT_ADMIN_password
       (dict_get first_store DEFAULT_ADMIN_username) = Return true
  /\ lit "a" <> lit "b"
  /\ change_password sample_float_repr sample_float_bool
       (Some DEFAULT_ADMIN_username) DEFAULT_ADMIN_password (lit "a") (lit "b")
       first_run
     = (Return (change_password_page DEFAULT_ADMIN_username
                  (Some (lit "Passwords do not match")) None),
        first_run)
  /\ users_file first_run <> None.
Proof.
  assert (Hne : lit "a" <> lit "b") by (intros H; discriminate H).
  assert (Hfile : users_file first_run <> None) by (intros H; discriminate H).
  pose proof (change_password_rejected sample_float_repr sample_float_bool
                DEFAULT_ADMIN_username (lit "guess") (lit "a") (lit "a")
                _ _ _ broken_store_load) as (Hwrong & _ & _).
  pose proof (change_password_rejected sample_float_repr sample_float_bool
                DEFAULT_ADMIN_username DEFAULT_ADMIN_password (lit "a")
                (lit "b") _ _ _ first_run_load) as (_ & Hdiffer & _).
  split; [exact broken_store_load|]. split; [reflexivity|].
  split; [exact (Hwrong eq_refl)|]. split; [exact first_run_load|].
  split; [exact first_hash_verifies|]. split; [exact Hne|].
  split; [exact (Hdiffer first_hash_verifies Hne) | exact Hfile].
Defined.

Lemma change_password_installs_fresh_hash_witness :
  load_users sample_float_repr first_run
  = (Return (PDict first_store), first_run)
  /\ verify_stored DEFAULT_ADMIN_password
       (dict_get first_store DEFAULT_ADMIN_username) = Return true
  /\ valid_text (lit "NewPass!23") = true
  /\ str_store first_store = true
  /\ exists hashed w2,
       change_password sample_float_repr sample_float_bool
         (Some DEFAULT_ADMIN_username) DEFAULT_ADMIN_password
         (lit "NewPass!23") (lit "NewPass!23") first_run
       = (Return (change_password_page DEFAULT_ADMIN_username None
                    (Some (lit "Password updated"))), w2)
       /\ verify_password (lit "NewPass!23") hashed = Return true
       /\ fst (fst (do_login sample_float_repr sample_float_bool None
                      DEFAULT_ADMIN_username (lit "NewPass!23") None w2))
          = Return (RedirectResponse (lit "/") 303).
Proof.
  assert (Hstore : str_store first_store = true).
  { unfold first_store. cbn [str_store dict_mem negb andb].
    unfold first_hash. rewrite valid_text_stored. reflexivity. }
  split; [exact first_run_load|]. split; [exact first_hash_verifies|].
  split; [reflexivity|]. split; [exact Hstore|].
  destruct (change_password_installs_fresh_hash sample_float_repr
              sample_float_bool DEFAULT_ADMIN_username DEFAULT_ADMIN_password
              (lit "NewPass!23") _ _ _ first_run_load first_hash_verifies
              eq_refl)
    as (pw & w2 & _ & Hchange & _ & _ & Hverify & _ & Hlogin).
  eexists. exists w2. split; [exact Hchange|]. split; [exact Hverify|].
  exact (proj2 (Hlogin Hstore None (lit "NewPass!23") None) Hverify).
Defined.

Lemma login_outcome_witness :
  load_users sample_float_repr first_run
  = (Return (PDict first_store), first_run)
  /\ dict_mem first_store DEFAULT_ADMIN_username = true
  /\ verify_stored DEFAULT_ADMIN_password
       (dict_get first_store DEFAULT_ADMIN_username) = Return true
  /\ do_login sample_float_repr sample_float_bool None DEFAULT_ADMIN_username
       DEFAULT_ADMIN_password None first_run
     = (Return (RedirectResponse (lit "/") 303),
        Some DEFAULT_ADMIN_username, first_run)
  /\ dict_mem first_store (lit "nobody") = false
  /\ do_login sample_float_repr sample_float_bool None (lit "nobody")
       DEFAULT_ADMIN_password None first_run
     = (Return (login_failed None), None, first_run)
  /\ dict_mem broken_store DEFAULT_ADMIN_username = true
  /\ verify_stored DEFAULT_ADMIN_password
       (dict_get broken_store DEFAULT_ADMIN_username) = Return false
  /\ do_login sample_float_repr sample_float_bool None DEFAULT_ADMIN_username
       DEFAULT_ADMIN_password None (world_of_store broken_store)
     = (Return (login_failed None), None, world_of_store broken_store).
Proof.
  pose proof (login_outcome sample_float_repr sample_float_bool None
                DEFAULT_ADMIN_username DEFAULT_ADMIN_password None
                _ _ _ first_run_load) as (Hok & _).
  pose proof (login_outcome sample_float_repr sample_float_bool None
                (lit "nobody") DEFAULT_ADMIN_password None
                _ _ _ first_run_load) as (_ & Habsent & _).
  pose proof (login_outcome sample_float_repr sample_float_bool None
                DEFAULT_ADMIN_username DEFAULT_ADMIN_password None
                _ _ _ broken_store_load) as (_ & _ & Hwrong & _).
  split; [exact first_run_load|]. split; [reflexivity|].
  split; [exact first_hash_verifies|].
  split; [exact (Hok eq_refl first_hash_verifies)|].
  split; [reflexivity|]. split; [exact (Habsent eq_refl)|].
  split; [reflexivity|]. split; [reflexivity|].
  exact (Hwrong eq_refl eq_refl).
Defined.



Lemma change_password_frame_witness :
  load_users sample_float_repr (world_of_store two_user_store)
  = (Return (PDict two_user_store), world_of_store two_user_store)
  /\ verify_stored DEFAULT_ADMIN_password
       (dict_get two_user_store DEFAULT_ADMIN_username) = Return true
  /\ valid_text (lit "NewPass!23") = true
  /\ lit "bob" <> DEFAULT_ADMIN_username
  /\ dict_get two_user_store (lit "bob") = PStr bob_hash
  /\ str_store two_user_store = true
  /\ exists hashed w2,
       change_password sample_float_repr sample_float_bool
         (Some DEFAULT_ADMIN_username) DEFAULT_ADMIN_password
         (lit "NewPass!23") (lit "NewPass!23") (world_of_store two_user_store)
       = (Return (change_password_page DEFAULT_ADMIN_username None
                    (Some (lit "Password updated"))), w2)
       /\ users_file w2
          = Some (json_dumps sample_float_repr
                    (PDict [(DEFAULT_ADMIN_username, PStr hashed);
                            (lit "bob", PStr bob_hash)]))
       /\ map fst (dict_set two_user_store DEFAULT_ADMIN_username
                     (PStr hashed))
          = [DEFAULT_ADMIN_username; lit "bob"]
       /\ dict_get (dict_set two_user_store DEFAULT_ADMIN_username
                      (PStr hashed)) (lit "bob")
          = PStr bob_hash
       /\ load_users sample_float_repr w2
          = (Return (PDict [(DEFAULT_ADMIN_username, PStr hashed);
                            (lit "bob", PStr bob_hash)]), w2)
       /\ verify_password (lit "b") bob_hash = Return true.
Proof.
  assert (Hne : lit "bob" <> DEFAULT_ADMIN_username)
    by (intros H; discriminate H).
  split; [exact two_user_store_load|].
  split; [exact two_user_store_verifies|].
  split; [reflexivity|]. split; [exact Hne|]. split; [reflexivity|].
  split; [exact two_user_store_is_str_store|].
  destruct (change_password_frame sample_float_repr sample_float_bool
              DEFAULT_ADMIN_username DEFAULT_ADMIN_password
              (lit "NewPass!23") _ _ _ two_user_store_load
              two_user_store_verifies eq_refl)
    as (hashed & w2 & Hchange & Hfile & Hkeys & Hother & Hload).
  exists hashed, w2. split; [exact Hchange|]. split; [exact Hfile|].
  split; [exact Hkeys|]. split; [exact (Hother _ Hne)|].
  split; [exact (Hload two_user_store_is_str_store)|].
  apply verify_password_hash. reflexivity.
Defined.

(** * Inputs on which the hasher and the password change do less

    [hash_password] raises on a password that [str.encode] rejects, and with
    a random source that repeats itself two hashes of one password are the
    same string. *)
Lemma hash_twice_with_a_repeating_source :
  hash_password lone_surrogate (Some first_salt) empty_world
  = (Raise UnicodeEncodeError, empty_world)
  /\ (forall stored, verify_password lone_surrogate stored = Return false)
  /\ exists h,
       fst (hash_password DEFAULT_ADMIN_password None constant_world)
       = Return h
       /\ fst (hash_password DEFAULT_ADMIN_password None
                 (snd (hash_password DEFAULT_ADMIN_password None
                         constant_world)))
          = Return h.
Proof.
  split; [reflexivity|]. split.
  - intros stored. unfold verify_password.
    destruct (split_on DOLLAR stored) as [|salt_hex [|hash_hex [|x fs]]];
      try reflexivity.
    destruct (bytes_fromhex salt_hex) as [salt|e]; reflexivity.
  - eexists. split; reflexivity.
Qed.

(** After an accepted change from the default password to the default
    password followed by U+0000, a different string, the old password still
    verifies against the new hash and still logs in: HMAC pads both keys
    with zero bytes to the same block.  With a random source that repeats
    itself the new hash is computed with the salt of the old one.  A new
    password that [str.encode] rejects is not installed at all. *)
Lemma old_password_survives_the_change :
  (DEFAULT_ADMIN_password <> nul_padded_password
   /\ exists hashed w2,
        change_password sample_float_repr sample_float_bool
          (Some DEFAULT_ADMIN_username) DEFAULT_ADMIN_password
          nul_padded_password nul_padded_password first_run
        = (Return (change_password_page DEFAULT_ADMIN_username None
                     (Some (lit "Password updated"))), w2)
        /\ users_file w2
           = Some (json_dumps sample_float_repr
                     (PDict [(DEFAULT_ADMIN_username, PStr hashed)]))
        /\ hd [] (split_on DOLLAR hashed) = bytes_hex second_salt
        /\ hd [] (split_on DOLLAR first_hash) = bytes_hex first_salt
        /\ verify_password nul_padded_password hashed = Return true
        /\ verify_password DEFAULT_ADMIN_password hashed = Return true
        /\ do_login sample_float_repr sample_float_bool None
             DEFAULT_ADMIN_username DEFAULT_ADMIN_password None w2
           = (Return (RedirectResponse (lit "/") 303),
              Some DEFAULT_ADMIN_username, w2))
  /\ (exists new_key w2,
        users_file constant_first_run
        = Some (json_dumps sample_float_repr
                  (PDict [(DEFAULT_ADMIN_username,
                           PStr (bytes_hex zero_salt ++ lit "$"
                                   ++ bytes_hex (kdf default_password_utf8
                                                   zero_salt)))]))
        /\ change_password sample_float_repr sample_float_bool
             (Some DEFAULT_ADMIN_username) DEFAULT_ADMIN_password
             (lit "NewPass!23") (lit "NewPass!23") constant_first_run
           = (Return (change_password_page DEFAULT_ADMIN_username None
                        (Some (lit "Password updated"))), w2)
        /\ users_file w2
           = Some (json_dumps sample_float_repr
                     (PDict [(DEFAULT_ADMIN_username,
                              PStr (bytes_hex zero_salt ++ lit "$"
                                      ++ bytes_hex new_key))])))
  /\ (exists w2,
        change_password sample_float_repr sample_float_bool
          (Some DEFAULT_ADMIN_username) DEFAULT_ADMIN_password
          lone_surrogate lone_surrogate first_run
        = (Raise UnicodeEncodeError, w2)
        /\ users_file w2 = users_file first_run).
Proof.
  split; [|split].
  - split; [intros H; discriminate H|].
    assert (Hpw : encode_utf8 nul_padded_password
                  = Return (default_password_utf8 ++ [x00])) by reflexivity.
    assert (Hold : encode_utf8 DEFAULT_ADMIN_password
                   = Return default_password_utf8) by reflexivity.
    pose proof (change_password_success sample_float_repr sample_float_bool
                  DEFAULT_ADMIN_username DEFAULT_ADMIN_password
                  nul_padded_password _ _ _ _
                  first_run_load first_hash_verifies Hpw) as Hchange.
    change (fst (token_bytes 16 first_run)) with second_salt in Hchange.
    set (hashed := bytes_hex second_salt ++ [DOLLAR]
                     ++ bytes_hex (kdf (default_password_utf8 ++ [x00])
                                     second_salt)) in Hchange.
    assert (Hnew : verify_password nul_padded_password hashed = Return true)
      by (apply verify_password_hash; exact Hpw).
    assert (Hv : verify_password DEFAULT_ADMIN_password hashed = Return true).
    { apply (verify_password_iff _ _ _ _ Hold). symmetry.
      apply kdf_zero_padded. cbn [length default_password_utf8]. lia. }
    assert (Hstore : str_store [(DEFAULT_ADMIN_username, PStr hashed)] = true).
    { cbn [str_store dict_mem negb andb]. unfold hashed.
      rewrite valid_text_stored. reflexivity. }
    exists hashed. eexists. split; [exact Hchange|].
    split; [reflexivity|].
    split; [unfold hashed; rewrite split_stored; reflexivity|].
    split; [unfold first_hash; rewrite split_stored; reflexivity|].
    split; [exact Hnew|]. split; [exact Hv|].
    rewrite (do_login_verify _ _ _ _ _ _ _ _ _
               (load_users_saved sample_float_repr _ _ Hstore)).
    change (dict_get [(DEFAULT_ADMIN_username, PStr hashed)]
              DEFAULT_ADMIN_username) with (PStr hashed).
    cbn [verify_stored dict_set]. rewrite Hv. reflexivity.
  - assert (Hpw : encode_utf8 (lit "NewPass!23")
                  = Return (ascii_bytes "NewPass!23")) by reflexivity.
    pose proof (change_password_success sample_float_repr sample_float_bool
                  DEFAULT_ADMIN_username DEFAULT_ADMIN_password
                  (lit "NewPass!23") _ _ _ _
                  constant_first_run_load constant_hash_verifies Hpw)
      as Hchange.
    change (fst (token_bytes 16 constant_first_run)) with zero_salt in Hchange.
    eexists. eexists. split; [reflexivity|]. split; [exact Hchange|].
    reflexivity.
  - eexists.
    rewrite (change_password_verify _ _ _ _ _ _ _ _ _ first_run_load).
    rewrite first_hash_verifies. split; reflexivity.
Qed.

(** * Instances of the further properties *)

Lemma invalid_password_text_witness :
  valid_text lone_surrogate = false
  /\ hash_password lone_surrogate None empty_world
     = (Raise UnicodeEncodeError, mkWorld None tape 16 [])
  /\ verify_password lone_surrogate first_hash = Return false.
Proof.
  split; [reflexivity|].
  exact (proj2 (invalid_password_text lone_surrogate [] first_hash
                  empty_world eq_refl)).
Defined.

Lemma hash_password_format_witness :
  encode_utf8 DEFAULT_ADMIN_password = Return default_password_utf8
  /\ exists h,
       fst (hash_password DEFAULT_ADMIN_password None empty_world) = Return h
       /\ length h = 97%nat.
Proof.
  split; [reflexivity|].
  destruct (hash_password_format DEFAULT_ADMIN_password default_password_utf8
              first_salt empty_world eq_refl)
    as (h & h' & _ & _ & _ & _ & Hh' & Hlen).
  exists h'. split; [exact Hh' | exact Hlen].
Defined.

Lemma verify_rejects_short_hash_witness :
  split_on DOLLAR (lit "00$abcd") = [lit "00"; lit "abcd"]
  /\ length (lit "abcd") <> 64%nat
  /\ verify_password DEFAULT_ADMIN_password (lit "00$abcd") = Return false.
Proof.
  assert (Hlen : length (lit "abcd") <> 64%nat) by (intros H; discriminate H).
  split; [reflexivity|]. split; [exact Hlen|].
  exact (verify_rejects_short_hash DEFAULT_ADMIN_password (lit "00$abcd")
           (lit "00") (lit "abcd") eq_refl Hlen).
Defined.

Lemma ensure_users_file_effects_witness :
  users_file empty_world = None
  /\ drawn first_run = 16%nat
  /\ stdout first_run
     = [lit "Created users.json with default credentials: admin / secret123"].
Proof.
  split; [reflexivity|].
  destruct (ensure_users_file_effects sample_float_repr empty_world eq_refl)
    as (Hd & _ & Ho).
  split; [exact Hd | exact Ho].
Defined.

Lemma first_store_is_str_store : str_store first_store = true.
Proof.
  unfold first_store. cbn [str_store dict_mem negb andb].
  unfold first_hash. rewrite valid_text_stored. reflexivity.
Qed.

Lemma save_then_load_witness :
  str_store first_store = true
  /\ load_users sample_float_repr
       (save_users sample_float_repr (PDict first_store) empty_world)
     = (Return (PDict first_store),
        save_users sample_float_repr (PDict first_store) empty_world).
Proof.
  split; [exact first_store_is_str_store|].
  exact (proj1 (save_then_load sample_float_repr first_store [] empty_world
                  first_store_is_str_store)).
Defined.

(** A users file that holds a JSON array. *)
Definition array_world : world := mkWorld (Some (lit "[]")) tape 0 [].

Lemma store_not_a_dict_witness :
  users_file array_world = Some (lit "[]")
  /\ json_loads (lit "[]") = Return (PList [])
  /\ is_dict (PList []) = false
  /\ do_login sample_float_repr sample_float_bool None DEFAULT_ADMIN_username
       DEFAULT_ADMIN_password None array_world
     = (Raise AttributeError, None, array_world).
Proof.
  split; [reflexivity|]. split; [reflexivity|]. split; [reflexivity|].
  exact (proj1 (proj2 (store_not_a_dict sample_float_repr sample_float_bool
                         None DEFAULT_ADMIN_username DEFAULT_ADMIN_password
                         [] [] None array_world (lit "[]") (PList [])
                         eq_refl eq_refl eq_refl))).
Defined.

(** A store whose entry for the administrator is a number. *)
Definition number_store : dict := [(DEFAULT_ADMIN_username, PInt 5)].

Lemma number_store_load :
  load_users sample_float_repr (world_of_store number_store)
  = (Return (PDict number_store), world_of_store number_store).
Proof. reflexivity. Qed.

Lemma entry_not_a_string_witness :
  load_users sample_float_repr (world_of_store number_store)
  = (Return (PDict number_store), world_of_store number_store)
  /\ is_str (dict_get number_store DEFAULT_ADMIN_username) = false
  /\ do_login sample_float_repr sample_float_bool None DEFAULT_ADMIN_username
       DEFAULT_ADMIN_password None (world_of_store number_store)
     = (Return (login_failed None), None, world_of_store number_store).
Proof.
  split; [exact number_store_load|]. split; [reflexivity|].
  exact (proj1 (entry_not_a_string sample_float_repr sample_float_bool None
                  DEFAULT_ADMIN_username DEFAULT_ADMIN_password [] [] None
                  _ _ _ number_store_load eq_refl)).
Defined.

Lemma do_login_effects_witness :
  users_file first_run <> None
  /\ snd (do_login sample_float_repr sample_float_bool None (lit "nobody")
            (lit "guess") None first_run) = first_run.
Proof.
  assert (Hf : users_file first_run <> None) by (intros H; discriminate H).
  split; [exact Hf|].
  exact (proj1 (proj2 (do_login_effects sample_float_repr sample_float_bool
                         None (lit "nobody") (lit "guess") None first_run))
           Hf).
Defined.

Lemma default_credentials_log_in_witness :
  users_file empty_world = None
  /\ do_login sample_float_repr sample_float_bool None DEFAULT_ADMIN_username
       DEFAULT_ADMIN_password None empty_world
     = (Return (RedirectResponse (lit "/") 303),
        Some DEFAULT_ADMIN_username, first_run).
Proof.
  split; [reflexivity|].
  exact (default_credentials_log_in sample_float_repr sample_float_bool None
           None empty_world eq_refl).
Defined.


Lemma change_password_draws_one_salt_witness :
  load_users sample_float_repr first_run
  = (Return (PDict first_store), first_run)
  /\ verify_stored DEFAULT_ADMIN_password
       (dict_get first_store DEFAULT_ADMIN_username) = Return true
  /\ valid_text (lit "NewPass!23") = true
  /\ drawn (snd (change_password sample_float_repr sample_float_bool
                   (Some DEFAULT_ADMIN_username) DEFAULT_ADMIN_password
                   (lit "NewPass!23") (lit "NewPass!23") first_run))
     = 32%nat.
Proof.
  split; [exact first_run_load|]. split; [exact first_hash_verifies|].
  split; [reflexivity|].
  exact (proj1 (change_password_draws_one_salt sample_float_repr
                  sample_float_bool DEFAULT_ADMIN_username
                  DEFAULT_ADMIN_password (lit "NewPass!23") _ _ _
                  first_run_load first_hash_verifies eq_refl)).
Defined.

Lemma change_password_invalid_text_witness :
  load_users sample_float_repr first_run
  = (Return (PDict first_store), first_run)
  /\ verify_stored DEFAULT_ADMIN_password
       (dict_get first_store DEFAULT_ADMIN_username) = Return true
  /\ valid_text lone_surrogate = false
  /\ exists w2,
       change_password sample_float_repr sample_float_bool
         (Some DEFAULT_ADMIN_username) DEFAULT_ADMIN_password lone_surrogate
         lone_surrogate first_run
       = (Raise UnicodeEncodeError, w2)
       /\ users_file w2 = users_file first_run.
Proof.
  split; [exact first_run_load|]. split; [exact first_hash_verifies|].
  split; [reflexivity|].
  destruct (change_password_invalid_text sample_float_repr sample_float_bool
              DEFAULT_ADMIN_username DEFAULT_ADMIN_password lone_surrogate
              _ _ _ first_run_load first_hash_verifies eq_refl)
    as (w2 & Hc & Hf & _).
  exists w2. split; [exact Hc | exact Hf].
Defined.

Lemma change_password_unknown_user_witness :
  load_users sample_float_repr first_run
  = (Return (PDict first_store), first_run)
  /\ dict_mem first_store (lit "nobody") = false
  /\ change_password sample_float_repr sample_float_bool
       (Some (lit "nobody")) (lit "guess") (lit "a") (lit "a") first_run
     = (Return (change_password_page (lit "nobody")
                  (Some (lit "Current password incorrect")) None),
        first_run).
Proof.
  split; [exact first_run_load|]. split; [reflexivity|].
  exact (change_password_unknown_user sample_float_repr sample_float_bool
           (lit "nobody") (lit "guess") (lit "a") (lit "a") _ _ _
           first_run_load eq_refl).
Defined.

Lemma session_lifecycle_witness :
  fst (fst (do_login sample_float_repr sample_float_bool None
              DEFAULT_ADMIN_username DEFAULT_ADMIN_password None empty_world))
  = Return (RedirectResponse (lit "/") 303)
  /\ add_page
       (snd (fst (do_login sample_float_repr sample_float_bool None
                    DEFAULT_ADMIN_username DEFAULT_ADMIN_password None
                    empty_world)))
     = TemplateResponse (lit "add.html")
         [("user"%string, PStr DEFAULT_ADMIN_username)].
Proof.
  assert (Hok :
    fst (fst (do_login sample_float_repr sample_float_bool None
                DEFAULT_ADMIN_username DEFAULT_ADMIN_password None
                empty_world))
    = Return (RedirectResponse (next_or_root None) 303)).
  { destruct (fresh_install_load sample_float_repr empty_world eq_refl)
      as (hashed & Hl & Hv).
    rewrite (do_login_verify _ _ _ _ _ _ _ _ _ Hl).
    change (dict_get [(DEFAULT_ADMIN_username, PStr hashed)]
              DEFAULT_ADMIN_username) with (PStr hashed).
    cbn [verify_stored]. rewrite Hv. reflexivity. }
  split; [exact Hok|].
  exact (proj1 (proj2 (proj1 (session_lifecycle sample_float_repr
                                sample_float_bool None DEFAULT_ADMIN_username
                                DEFAULT_ADMIN_password None empty_world)
                         Hok))).
Defined.

Lemma require_login_spec_witness :
  require_login None (lit "/add") <> None
  /\ require_login None (lit "/add")
     = Some (RedirectResponse (lit "/login?next=/add") 303).
Proof.
  assert (H : require_login None (lit "/add") <> None)
    by (intros E; discriminate E).
  split; [exact H|].
  exact (proj1 (proj2 (require_login_spec None (lit "/add"))) H).
Defined.

(** A toy implementation of the pandas interface, for the examples: a frame
    is the list of its rows, a file holds the frame as it is, and a row is
    assigned only when it has six cells and the index is in range. *)
Definition list_pandas : Pandas := {|
  frame := list (list pyval);
  xlsx := list (list pyval);
  empty_frame := [];
  to_excel := fun df => df;
  read_excel := fun content => Return content;
  frame_len := fun df => length df;
  frame_concat_row := fun df row => df ++ [map snd row];
  frame_set_row := fun df idx cells =>
    if Nat.eqb (length cells) 6
    then Return (firstn (Z.to_nat idx) df ++ cells
                   :: skipn (S (Z.to_nat idx)) df)
    else Raise ValueError;
  frame_row_dict := fun df idx => PList (nth (Z.to_nat idx) df [])
|}.

Definition one_row : @excel list_pandas :=
  Some [[PStr (lit "Ann"); PStr (lit "Acme"); PStr (lit "link");
         PStr (lit "ann@acme.org"); PNone; PStr (lit "CTO")]].

Lemma add_record_email_check_witness :
  str_contains 64 (lit "ann.acme") && str_contains 46 (lit "ann.acme") = false
  /\ @add_record list_pandas (Some (lit "admin")) (lit "Ann") (lit "Acme")
       (lit "link") (lit "ann.acme") None (lit "CTO") None
     = (Return (TemplateResponse (lit "add.html")
                  [("user"%string, PStr (lit "admin"));
                   ("error"%string, PStr (lit "Invalid email"))]), None)
  /\ str_contains 64 (lit "bob@acme.org") && str_contains 46 (lit "bob@acme.org")
     = true
  /\ fst (@load_data list_pandas one_row)
     = Return [[PStr (lit "Ann"); PStr (lit "Acme"); PStr (lit "link");
                PStr (lit "ann@acme.org"); PNone; PStr (lit "CTO")]]
  /\ fst (@add_record list_pandas (Some (lit "admin")) (lit "Bob")
            (lit "Acme") (lit "link") (lit "bob@acme.org") None (lit "CEO")
            one_row)
     = Return (RedirectResponse (lit "/") 303).
Proof.
  pose proof (@add_record_email_check list_pandas (lit "admin") (lit "Ann")
                (lit "Acme") (lit "link") (lit "ann.acme") None (lit "CTO")
                None) as (Hbad & _).
  pose proof (@add_record_email_check list_pandas (lit "admin") (lit "Bob")
                (lit "Acme") (lit "link") (lit "bob@acme.org") None
                (lit "CEO") one_row) as (_ & Hgood).
  split; [reflexivity|]. split; [exact (Hbad eq_refl)|].
  split; [reflexivity|]. split; [reflexivity|].
  rewrite (Hgood eq_refl _ eq_refl). reflexivity.
Defined.

Lemma update_index_bounds_witness :
  fst (@load_data list_pandas one_row)
  = Return [[PStr (lit "Ann"); PStr (lit "Acme"); PStr (lit "link");
             PStr (lit "ann@acme.org"); PNone; PStr (lit "CTO")]]
  /\ (1 < 0 \/ Z.of_nat 1 <= 1)%Z
  /\ @update_record list_pandas (Some (lit "admin")) 1 (lit "Bob")
       (lit "Acme") (lit "link") (lit "bob@acme.org") None (lit "CEO") one_row
     = (Return (RedirectResponse (lit "/") 303), one_row)
  /\ (0 <= 0 < Z.of_nat 1)%Z
  /\ fst (@update_page list_pandas (Some (lit "admin")) 0 one_row)
     = Return (TemplateResponse (lit "update.html")
                 [("record"%string,
                   PList [PStr (lit "Ann"); PStr (lit "Acme");
                          PStr (lit "link"); PStr (lit "ann@acme.org");
                          PNone; PStr (lit "CTO")]);
                  ("idx"%string, PInt 0);
                  ("user"%string, PStr (lit "admin"))]).
Proof.
  assert (Hout : (1 < 0 \/ Z.of_nat 1 <= 1)%Z) by (right; cbn; lia).
  assert (Hin : (0 <= 0 < Z.of_nat 1)%Z) by (cbn; lia).
  pose proof (@update_index_bounds list_pandas (lit "admin") (lit "Bob")
                (lit "Acme") (lit "link") (lit "bob@acme.org") None
                (lit "CEO") 1 one_row _ eq_refl) as (H1 & _).
  pose proof (@update_index_bounds list_pandas (lit "admin") (lit "Bob")
                (lit "Acme") (lit "link") (lit "bob@acme.org") None
                (lit "CEO") 0 one_row _ eq_refl) as (_ & H0).
  split; [reflexivity|]. split; [exact Hout|].
  split; [exact (proj2 (H1 Hout))|]. split; [exact Hin|].
  rewrite (proj1 (H0 Hin)). reflexivity.
Defined.

Lemma update_record_skips_email_check_witness :
  str_contains 64 (lit "nonsense") && str_contains 46 (lit "nonsense") = false
  /\ (0 <= 0 < Z.of_nat 1)%Z
  /\ @update_record list_pandas (Some (lit "admin")) 0 (lit "Bob")
       (lit "Acme") (lit "link") (lit "nonsense") None (lit "CEO") one_row
     = (Return (RedirectResponse (lit "/") 303),
        Some [[PStr (lit "Bob"); PStr (lit "Acme"); PStr (lit "link");
               PStr (lit "nonsense"); PNone; PStr (lit "CEO")]]).
Proof.
  assert (Hin : (0 <= 0 < Z.of_nat 1)%Z) by (cbn; lia).
  split; [reflexivity|]. split; [exact Hin|].
  exact (proj2 (@update_record_skips_email_check list_pandas (lit "admin")
                  (lit "Bob") (lit "Acme") (lit "link") (lit "nonsense") None
                  (lit "CEO") 0 one_row _ _ eq_refl eq_refl Hin eq_refl)).
Defined.

Lemma load_data_idempotent_witness :
  one_row <> None /\ snd (@load_data list_pandas one_row) = one_row.
Proof.
  assert (H : one_row <> None) by (intros E; discriminate E).
  split; [exact H|].
  exact (proj1 (proj2 (@load_data_idempotent list_pandas one_row)) H).
Defined.

Lemma users_file_is_ascii_witness :
  forallb (fun kv => is_str (snd kv)) first_store = true
  /\ exists content,
       users_file (save_users sample_float_repr (PDict first_store)
                     empty_world) = Some content
       /\ forallb printable content = true.
Proof.
  split; [reflexivity|].
  exact (users_file_is_ascii sample_float_repr first_store empty_world
           eq_refl).
Defined.

Lemma stored_salt_round_trip_witness :
  encode_utf8 DEFAULT_ADMIN_password = Return default_password_utf8
  /\ exists h salt_hex hash_hex,
       fst (hash_password DEFAULT_ADMIN_password (Some first_salt)
              empty_world) = Return h
       /\ split_on DOLLAR h = [salt_hex; hash_hex]
       /\ bytes_fromhex salt_hex = Return first_salt.
Proof.
  split; [reflexivity|].
  destruct (stored_salt_round_trip DEFAULT_ADMIN_password
              default_password_utf8 first_salt empty_world eq_refl)
    as (h & salt_hex & hash_hex & Hh & Hs & Hf & _).
  exists h, salt_hex, hash_hex. split; [exact Hh|].
  split; [exact Hs | exact Hf].
Defined.
